(** * pet: the GitLab snippet synchronisation client (sync/gitlab.go)

    A shallow embedding of [sync/gitlab.go].  Go values are modelled
    as the code has them: pointers as [option] (nil is [None]), [int]
    as [Z], [string] as [string], [[]byte] as [list byte], the pair
    [(value, error)] returned by a Go function as a Rocq pair whose
    second component is [option error].  Effects (requests sent to the
    remote service, lines printed, the progress spinner, panics) are
    threaded through a state-and-panic monad [Go]. *)

From Stdlib Require Import ZArith String Ascii List Lia Bool DecimalString DecimalPos.
From Stdlib Require Import Strings.Byte.
Import ListNotations.

Local Open Scope string_scope.
Local Open Scope Z_scope.

(** ** Go values used by the file *)

(** [time.Time], as seconds; the zero value of the type is [0]. *)
Definition Time := Z.
Definition zeroTime : Time := 0.

(** The [%d] verb of [fmt] on an [int]: decimal digits, with a leading
    minus sign for a negative number. *)
Definition fmt_d (n : Z) : string := NilZero.string_of_int (Z.to_int n).

(** [string(b)] for [b []byte]: the same bytes. *)
Definition string_of_bytes (b : list byte) : string := string_of_list_byte b.

(** Error values.  [errorString] stands for [errors.New] and
    [fmt.Errorf] (an error known by its message), [withMessage] for
    [errors.Wrap] and [errors.Wrapf] of github.com/pkg/errors (a cause
    and a context message), [NumError] for [*strconv.NumError]. *)
Inductive error : Type :=
| errorString (s : string)
| withMessage (cause : error) (msg : string)
| NumError (Func Num : string) (Err : error).

Definition errors_New (msg : string) : error := errorString msg.
Definition fmt_Errorf (msg : string) : error := errorString msg.
Definition errors_Wrap (err : error) (msg : string) : error := withMessage err msg.
Definition errors_Wrapf (err : error) (msg : string) : error := withMessage err msg.

(** ** strconv.Atoi *)

Module strconv.

Definition ErrSyntax : error := errorString "invalid syntax".
Definition ErrRange : error := errorString "value out of range".

Definition maxUint64 : Z := 2 ^ 64 - 1.

Inductive uintResult : Type :=
| UintOk (n : Z)
| UintSyntax
| UintRange.

(** The digit loop of [ParseUint] in base 10: it stops at the first
    byte that is not a digit and at the first overflow. *)
Fixpoint parseUintLoop (s : string) (n : Z) : uintResult :=
  match s with
  | EmptyString => UintOk n
  | String c s' =>
      let b := Z.of_N (N_of_ascii c) in
      if (48 <=? b) && (b <=? 57) then
        let d := b - 48 in
        if maxUint64 / 10 + 1 <=? n then UintRange
        else
          let n1 := n * 10 + d in
          if maxUint64 <? n1 then UintRange else parseUintLoop s' n1
      else UintSyntax
  end.

Definition ParseUint (s : string) : uintResult :=
  match s with
  | EmptyString => UintSyntax
  | _ => parseUintLoop s 0
  end.

(** [Atoi(s)], that is [ParseInt(s, 10, 0)] with a 64-bit [int]; the
    error names the function [Atoi] and the whole input. *)
Definition Atoi (s : string) : Z * option error :=
  match s with
  | EmptyString => (0, Some (NumError "Atoi" s ErrSyntax))
  | String c rest =>
      let neg := Ascii.eqb c "-" in
      let digits := if Ascii.eqb c "+" || neg then rest else s in
      match ParseUint digits with
      | UintSyntax => (0, Some (NumError "Atoi" s ErrSyntax))
      | UintRange =>
          if neg then (- 2 ^ 63, Some (NumError "Atoi" s ErrRange))
          else (2 ^ 63 - 1, Some (NumError "Atoi" s ErrRange))
      | UintOk un =>
          if negb neg && (2 ^ 63 <=? un) then
            (2 ^ 63 - 1, Some (NumError "Atoi" s ErrRange))
          else if neg && (2 ^ 63 <? un) then
            (- 2 ^ 63, Some (NumError "Atoi" s ErrRange))
          else (if neg then - un else un, None)
      end
  end.

End strconv.

(** The number that a string of digits denotes after the digits that
    gave [acc]. *)
Fixpoint uintValue (d : Decimal.uint) (acc : Z) : Z :=
  match d with
  | Decimal.Nil => acc
  | Decimal.D0 d => uintValue d (acc * 10 + 0)
  | Decimal.D1 d => uintValue d (acc * 10 + 1)
  | Decimal.D2 d => uintValue d (acc * 10 + 2)
  | Decimal.D3 d => uintValue d (acc * 10 + 3)
  | Decimal.D4 d => uintValue d (acc * 10 + 4)
  | Decimal.D5 d => uintValue d (acc * 10 + 5)
  | Decimal.D6 d => uintValue d (acc * 10 + 6)
  | Decimal.D7 d => uintValue d (acc * 10 + 7)
  | Decimal.D8 d => uintValue d (acc * 10 + 8)
  | Decimal.D9 d => uintValue d (acc * 10 + 9)
  end.

(** The byte is one of the decimal digits [0] to [9]. *)
Definition isDigit (c : ascii) : bool :=
  (48 <=? Z.of_N (N_of_ascii c)) && (Z.of_N (N_of_ascii c) <=? 57).

(** One decimal digit or more, and nothing else. *)
Fixpoint allDigits (s : string) : bool :=
  match s with
  | EmptyString => true
  | String c s' => isDigit c && allDigits s'
  end.

Definition digitString (s : string) : bool :=
  match s with
  | EmptyString => false
  | _ => allDigits s
  end.

(** An optional sign [+] or [-], then a digit string. *)
Definition signedDigitString (s : string) : bool :=
  match s with
  | EmptyString => false
  | String c rest =>
      if Ascii.eqb c "+" || Ascii.eqb c "-" then digitString rest else digitString s
  end.

(** ** net/http and crypto/tls values built by the factory *)

Module tls.
Record Config : Type := { InsecureSkipVerify : bool }.
End tls.

Module http.
Record Transport : Type := { TLSClientConfig : option tls.Config }.
(** [Transport] is nil in [&http.Client{}]. *)
Record Client : Type := { Transport_ : option Transport }.
End http.

(** ** github.com/xanzy/go-gitlab: the values exchanged with the library *)

Module gitlab.

Record Snippet : Type := {
  ID : Z;
  FileName : string;
  UpdatedAt : option Time          (* *time.Time *)
}.

Record Response : Type := { StatusCode : Z }.

Definition VisibilityValue := string.

(** The fields are pointers; [gitlab.String(x)] is [Some x]. *)
Record CreateSnippetOptions : Type := {
  cTitle : option string;
  cFileName : option string;
  cDescription : option string;
  cContent : option string;
  cVisibility : option VisibilityValue
}.

Record UpdateSnippetOptions : Type := {
  uTitle : option string;
  uFileName : option string;
  uDescription : option string;
  uContent : option string;
  uVisibility : option VisibilityValue
}.

Definition String (s : string) : option string := Some s.
Definition Visibility (v : VisibilityValue) : option VisibilityValue := Some v.

Inductive ClientOptionFunc : Type :=
| WithBaseURL (u : string)
| WithHTTPClient (h : http.Client).

End gitlab.

(** ** config.Conf.GitLab *)

Module config.

(** Modelled from the spec: the declaration of the configuration
    record [config.Conf.GitLab] is not in sync/gitlab.go; the fields
    are those the file reads (endpoint URL, TLS-verification-skip
    flag, access token, textual remote-object identifier, target
    filename, visibility level). *)
Record GitLabConfig : Type := {
  Url : string;
  SkipSsl : bool;
  AccessToken : string;
  ID : string;
  FileName : string;
  Visibility : string
}.

End config.

(** Modelled from the spec: the type [Snippet] of package sync is
    declared outside sync/gitlab.go; it is the synchronisation payload,
    a textual [Content] and an [UpdatedAt] timestamp. *)
Record Snippet : Type := {
  Content : string;
  UpdatedAt : Time
}.

(** [Snippet{}]: every field at its zero value. *)
Definition Snippet_zero : Snippet := {| Content := ""; UpdatedAt := zeroTime |}.

Definition gitlabTokenEnvVariable : string := "PET_GITLAB_ACCESS_TOKEN".

(** ** The library and the remote service behind it

    What go-gitlab does with a request is not part of the file: the
    client constructor and the four methods of the Snippets service are
    operations of an interface.  [Remote] is the state of everything on
    the far side of the library (the service, the network); a method
    reads and changes it and returns the Go triple
    [(value, response, error)]. *)
Class GitLabAPI : Type := {
  gitlab_Client : Type;
  Remote : Type;
  gitlab_NewClient :
    string -> list gitlab.ClientOptionFunc -> option gitlab_Client * option error;
  Snippets_GetSnippet :
    gitlab_Client -> Z -> Remote ->
    (option gitlab.Snippet * option gitlab.Response * option error) * Remote;
  Snippets_SnippetContent :
    gitlab_Client -> Z -> Remote ->
    (list byte * option gitlab.Response * option error) * Remote;
  Snippets_CreateSnippet :
    gitlab_Client -> gitlab.CreateSnippetOptions -> Remote ->
    (option gitlab.Snippet * option gitlab.Response * option error) * Remote;
  Snippets_UpdateSnippet :
    gitlab_Client -> Z -> gitlab.UpdateSnippetOptions -> Remote ->
    (option gitlab.Snippet * option gitlab.Response * option error) * Remote;
  (** [strconv.Quote], used only to render a [NumError]. *)
  strconv_Quote : string -> string
}.

(** ** The process: configuration, environment, remote side, outputs *)

Section Sync.

Context {api : GitLabAPI}.

(** [err.Error()]. *)
Fixpoint Error (e : error) : string :=
  match e with
  | errorString s => s
  | withMessage cause msg => msg ++ ": " ++ Error cause
  | NumError f num err =>
      "strconv." ++ f ++ ": parsing " ++ strconv_Quote num ++ ": " ++ Error err
  end.

(** GitLabClient manages communication with GitLab Snippets. *)
Record GitLabClient : Type := {
  Client : option gitlab_Client;      (* *gitlab.Client *)
  ID : Z
}.

(** A request handed to the Snippets service of a library client. *)
Inductive Call : Type :=
| CallGetSnippet (c : gitlab_Client) (id : Z)
| CallSnippetContent (c : gitlab_Client) (id : Z)
| CallCreateSnippet (c : gitlab_Client) (opt : gitlab.CreateSnippetOptions)
| CallUpdateSnippet (c : gitlab_Client) (id : Z) (opt : gitlab.UpdateSnippetOptions).

(** What the program does to a progress spinner. *)
Inductive SpinnerEvent : Type :=
| SpinnerStart
| SpinnerSuffix (s : string)
| SpinnerStop.

Record World : Type := {
  Conf : config.GitLabConfig;            (* config.Conf.GitLab *)
  environ : list (string * string);      (* the process environment *)
  remote : Remote;
  calls : list Call;                     (* requests sent, oldest first *)
  stdout : list string;                  (* strings printed, oldest first *)
  spinner : list SpinnerEvent            (* oldest first *)
}.

Definition with_remote (r : Remote) (c : Call) (w : World) : World :=
  {| Conf := Conf w; environ := environ w; remote := r;
     calls := (calls w ++ [c])%list; stdout := stdout w; spinner := spinner w |}.

Definition with_stdout (s : string) (w : World) : World :=
  {| Conf := Conf w; environ := environ w; remote := remote w;
     calls := calls w; stdout := (stdout w ++ [s])%list; spinner := spinner w |}.

Definition with_spinner (e : SpinnerEvent) (w : World) : World :=
  {| Conf := Conf w; environ := environ w; remote := remote w;
     calls := calls w; stdout := stdout w; spinner := (spinner w ++ [e])%list |}.

(** ** The monad: state of the process, and panics *)

Inductive PanicValue : Type :=
| NilDereference.    (* invalid memory address or nil pointer dereference *)

Inductive Outcome (A : Type) : Type :=
| Returned (a : A)
| Panicked (p : PanicValue).

Arguments Returned {A} a.
Arguments Panicked {A} p.

Definition Go (A : Type) : Type := World -> Outcome A * World.

Definition ret {A} (a : A) : Go A := fun w => (Returned a, w).

Definition bind {A B} (m : Go A) (k : A -> Go B) : Go B :=
  fun w =>
    match m w with
    | (Returned a, w') => k a w'
    | (Panicked p, w') => (Panicked p, w')
    end.

Definition panic {A} (p : PanicValue) : Go A := fun w => (Panicked p, w).

(** Reading through a pointer. *)
Definition deref {A} (p : option A) : Go A :=
  match p with
  | Some a => ret a
  | None => panic NilDereference
  end.

(** [defer f()]: [f] runs when the body returns and when it panics. *)
Definition defer {A} (f : World -> World) (body : Go A) : Go A :=
  fun w => let (o, w') := body w in (o, f w').

Definition reads {A} (f : World -> A) : Go A := fun w => (Returned (f w), w).
Definition writes (f : World -> World) : Go unit := fun w => (Returned tt, f w).

Notation "x <- m ;; k" := (bind m (fun x => k))
  (at level 61, m at next level, right associativity).
Notation "' pat <- m ;; k" := (bind m (fun x => match x with pat => k end))
  (at level 61, pat pattern, m at next level, right associativity).
Notation "m ;; k" := (bind m (fun _ => k))
  (at level 61, right associativity).

(** ** Primitives *)

Fixpoint lookupEnv (key : string) (env : list (string * string)) : string :=
  match env with
  | [] => ""
  | (k, v) :: env' => if (k =? key)%string then v else lookupEnv key env'
  end.

(** [os.Getenv]: the value of the variable, empty when it is not set. *)
Definition os_Getenv (key : string) : Go string :=
  reads (fun w => lookupEnv key (environ w)).

Definition config_Conf_GitLab : Go config.GitLabConfig := reads Conf.

Definition newline : string := String "010"%char "".
Definition tab : string := String "009"%char "".

Definition fmt_Println (s : string) : Go unit := writes (with_stdout (s ++ newline)).
Definition fmt_Printf (s : string) : Go unit := writes (with_stdout s).

Definition spinner_Start : Go unit := writes (with_spinner SpinnerStart).
Definition spinner_set_Suffix (s : string) : Go unit := writes (with_spinner (SpinnerSuffix s)).
Definition spinner_Stop : World -> World := with_spinner SpinnerStop.

(** [c.Snippets.GetSnippet(id)] and the three other requests. *)
Definition GetSnippet_request (c : gitlab_Client) (id : Z)
  : Go (option gitlab.Snippet * option gitlab.Response * option error) :=
  fun w => let (r, rs) := Snippets_GetSnippet c id (remote w) in
           (Returned r, with_remote rs (CallGetSnippet c id) w).

Definition SnippetContent_request (c : gitlab_Client) (id : Z)
  : Go (list byte * option gitlab.Response * option error) :=
  fun w => let (r, rs) := Snippets_SnippetContent c id (remote w) in
           (Returned r, with_remote rs (CallSnippetContent c id) w).

Definition CreateSnippet_request (c : gitlab_Client) (opt : gitlab.CreateSnippetOptions)
  : Go (option gitlab.Snippet * option gitlab.Response * option error) :=
  fun w => let (r, rs) := Snippets_CreateSnippet c opt (remote w) in
           (Returned r, with_remote rs (CallCreateSnippet c opt) w).

Definition UpdateSnippet_request (c : gitlab_Client) (id : Z)
           (opt : gitlab.UpdateSnippetOptions)
  : Go (option gitlab.Snippet * option gitlab.Response * option error) :=
  fun w => let (r, rs) := Snippets_UpdateSnippet c id opt (remote w) in
           (Returned r, with_remote rs (CallUpdateSnippet c id opt) w).

(** ** sync/gitlab.go *)

Definition getGitlabAccessToken : Go (string * option error) :=
  conf <- config_Conf_GitLab ;;
  if negb (config.AccessToken conf =? "")%string then
    conf <- config_Conf_GitLab ;;
    ret (config.AccessToken conf, None)
  else
    env <- os_Getenv gitlabTokenEnvVariable ;;
    if negb (env =? "")%string then
      env <- os_Getenv gitlabTokenEnvVariable ;;
      ret (env, None)
    else
      ret ("", Some (errors_New "GitLab AccessToken not found in any source")).

Definition access_token_is_empty : string :=
  "access_token is empty." ++ newline ++
  "Go https://gitlab.com/profile/personal_access_tokens and create access_token." ++ newline ++
  "Write access_token in config file (pet configure) or export $" ++
  gitlabTokenEnvVariable ++ "." ++ newline ++ tab ++ tab.

(** NewGitLabClient returns GitLabClient. *)
Definition NewGitLabClient : Go (option GitLabClient * option error) :=
  '(accessToken, err) <- getGitlabAccessToken ;;
  match err with
  | Some _ => ret (None, Some (fmt_Errorf access_token_is_empty))
  | None =>
      let u := "https://git.mydomain.com/api/v4" in
      let id := 0 in
      let h := {| http.Transport_ := None |} in
      conf <- config_Conf_GitLab ;;
      u <- (if negb (config.Url conf =? "")%string then
              fmt_Println (config.Url conf) ;;
              ret (config.Url conf)
            else ret u) ;;
      conf <- config_Conf_GitLab ;;
      let h :=
        if config.SkipSsl conf then
          let tr := {| http.TLSClientConfig :=
                         Some {| tls.InsecureSkipVerify := true |} |} in
          {| http.Transport_ := Some tr |}
        else h in
      let '(c, err) :=
        gitlab_NewClient accessToken [gitlab.WithBaseURL u; gitlab.WithHTTPClient h] in
      match err with
      | Some e =>
          ret (None, Some (errors_Wrapf e ("Failed to create GitLab client: " ++ fmt_d id)))
      | None =>
          conf <- config_Conf_GitLab ;;
          if (config.ID conf =? "")%string then
            let client := {| Client := c; ID := id |} in
            ret (Some client, None)
          else
            let '(id, err) := strconv.Atoi (config.ID conf) in
            match err with
            | Some e =>
                ret (None, Some (errors_Wrapf e ("Invalid GitLab Snippet ID: " ++ fmt_d id)))
            | None =>
                let client := {| Client := c; ID := id |} in
                ret (Some client, None)
            end
      end
  end.

(** GetSnippet returns the remote snippet. *)
Definition GetSnippet (g : GitLabClient) : Go (option Snippet * option error) :=
  spinner_Start ;;
  spinner_set_Suffix " Getting GitLab Snippet..." ;;
  defer spinner_Stop (
    if ID g =? 0 then ret (Some Snippet_zero, None)
    else
      c <- deref (Client g) ;;
      '(snippet, res, err) <- GetSnippet_request c (ID g) ;;
      match err with
      | Some e =>
          res <- deref res ;;
          if gitlab.StatusCode res =? 404 then
            ret (None, Some (errors_Wrapf e ("No GitLab Snippet ID (" ++ fmt_d (ID g) ++ ")")))
          else
            ret (None, Some (errors_Wrapf e
                   ("Failed to get GitLab Snippet (ID: " ++ fmt_d (ID g) ++ ")")))
      | None =>
          conf <- config_Conf_GitLab ;;
          let filename := config.FileName conf in
          snippet <- deref snippet ;;
          if negb (gitlab.FileName snippet =? filename)%string then
            ret (None, Some (fmt_Errorf
                   ("No snippet file in GitLab Snippet (ID: " ++ fmt_d (ID g) ++ ")")))
          else
            c <- deref (Client g) ;;
            '(contentByte, _, err) <- SnippetContent_request c (ID g) ;;
            match err with
            | Some e =>
                ret (None, Some (errors_Wrapf e
                       ("Failed to get GitLab Snippet content (ID: " ++ fmt_d (ID g) ++ ")")))
            | None =>
                let content := string_of_bytes contentByte in
                if (content =? "")%string then
                  ret (None, Some (fmt_Errorf (filename ++ " is empty")))
                else
                  updatedAt <- deref (gitlab.UpdatedAt snippet) ;;
                  ret (Some {| Content := content; UpdatedAt := updatedAt |}, None)
            end
      end).

Definition createSnippet (g : GitLabClient) (content : string) : Go (Z * option error) :=
  spinner_Start ;;
  spinner_set_Suffix " Creating GitLab Snippet..." ;;
  defer spinner_Stop (
    conf <- config_Conf_GitLab ;;
    let opt := {|
      gitlab.cTitle := gitlab.String "pet-snippet";
      gitlab.cFileName := gitlab.String (config.FileName conf);
      gitlab.cDescription := gitlab.String "Snippet file generated by pet";
      gitlab.cContent := gitlab.String content;
      gitlab.cVisibility := gitlab.Visibility (config.Visibility conf)
    |} in
    c <- deref (Client g) ;;
    '(ret_, _, err) <- CreateSnippet_request c opt ;;
    match err with
    | Some e => ret (-1, Some (errors_Wrap e "Failed to create GitLab Snippet"))
    | None =>
        ret_ <- deref ret_ ;;
        ret (gitlab.ID ret_, None)
    end).

Definition updateSnippet (g : GitLabClient) (content : string) : Go (option error) :=
  spinner_Start ;;
  spinner_set_Suffix " Updating GitLab Snippet..." ;;
  defer spinner_Stop (
    conf <- config_Conf_GitLab ;;
    let opt := {|
      gitlab.uTitle := gitlab.String "pet-snippet";
      gitlab.uFileName := gitlab.String (config.FileName conf);
      gitlab.uDescription := gitlab.String "Snippet file generated by pet";
      gitlab.uContent := gitlab.String content;
      gitlab.uVisibility := gitlab.Visibility (config.Visibility conf)
    |} in
    c <- deref (Client g) ;;
    '(_, _, err) <- UpdateSnippet_request c (ID g) opt ;;
    match err with
    | Some e => ret (Some (errors_Wrap e "Failed to update GitLab Snippet"))
    | None => ret None
    end).

(** UploadSnippet uploads local snippets to GitLab Snippet. *)
Definition UploadSnippet (g : GitLabClient) (content : string) : Go (option error) :=
  if ID g =? 0 then
    '(id, err) <- createSnippet g content ;;
    match err with
    | Some e => ret (Some (errors_Wrap e "Failed to create GitLab Snippet"))
    | None =>
        fmt_Printf ("GitLab Snippet ID: " ++ fmt_d id ++ newline) ;;
        ret None
    end
  else
    err <- updateSnippet g content ;;
    match err with
    | Some e => ret (Some (errors_Wrap e "Failed to update GitLab Snippet"))
    | None => ret None
    end.

(** ** A caller using one client value

    The methods have value receivers: every call of a sequence
    [g.GetSnippet(); g.UploadSnippet(c); ...] runs on a copy of the
    caller's [g]. *)

Inductive Op : Type :=
| OpGetSnippet
| OpUploadSnippet (content : string).

Inductive OpResult : Type :=
| ResGetSnippet (s : option Snippet) (err : option error)
| ResUploadSnippet (err : option error).

Definition perform (g : GitLabClient) (op : Op) : Go OpResult :=
  match op with
  | OpGetSnippet =>
      '(s, err) <- GetSnippet g ;;
      ret (ResGetSnippet s err)
  | OpUploadSnippet content =>
      err <- UploadSnippet g content ;;
      ret (ResUploadSnippet err)
  end.

Fixpoint session (g : GitLabClient) (ops : list Op) : Go (list OpResult) :=
  match ops with
  | [] => ret []
  | op :: ops' =>
      r <- perform g op ;;
      rs <- session g ops' ;;
      ret (r :: rs)
  end.

(** ** Reading the log of requests *)

Definition isCreate (c : Call) : bool :=
  match c with CallCreateSnippet _ _ => true | _ => false end.

Definition isUpdate (c : Call) : bool :=
  match c with CallUpdateSnippet _ _ _ => true | _ => false end.

Definition createCalls (l : list Call) : nat := length (filter isCreate l).
Definition updateCalls (l : list Call) : nat := length (filter isUpdate l).

(** The request is one that a method sends for the client [g]: a
    create only when the identity is unset, any other request only
    for the client's own non-zero identity. *)
Definition sentFor (g : GitLabClient) (c : Call) : Prop :=
  match c with
  | CallGetSnippet cl id | CallSnippetContent cl id | CallUpdateSnippet cl id _ =>
      Client g = Some cl /\ id = ID g /\ ID g <> 0
  | CallCreateSnippet cl _ => Client g = Some cl /\ ID g = 0
  end.

(** The requests [sent] were added to the log between [w] and [w']. *)
Definition sentBetween (w w' : World) (sent : list Call) : Prop :=
  calls w' = (calls w ++ sent)%list.

(** The options both [createSnippet] and [updateSnippet] build. *)
Definition createOptions (conf : config.GitLabConfig) (content : string)
  : gitlab.CreateSnippetOptions :=
  {| gitlab.cTitle := Some "pet-snippet";
     gitlab.cFileName := Some (config.FileName conf);
     gitlab.cDescription := Some "Snippet file generated by pet";
     gitlab.cContent := Some content;
     gitlab.cVisibility := Some (config.Visibility conf) |}.

Definition updateOptions (conf : config.GitLabConfig) (content : string)
  : gitlab.UpdateSnippetOptions :=
  {| gitlab.uTitle := Some "pet-snippet";
     gitlab.uFileName := Some (config.FileName conf);
     gitlab.uDescription := Some "Snippet file generated by pet";
     gitlab.uContent := Some content;
     gitlab.uVisibility := Some (config.Visibility conf) |}.

(** The options the factory hands to [gitlab.NewClient]. *)
Definition factoryOptions (conf : config.GitLabConfig) : list gitlab.ClientOptionFunc :=
  [ gitlab.WithBaseURL
      (if (config.Url conf =? "")%string then "https://git.mydomain.com/api/v4"
       else config.Url conf);
    gitlab.WithHTTPClient
      (if config.SkipSsl conf then
         {| http.Transport_ :=
              Some {| http.TLSClientConfig := Some {| tls.InsecureSkipVerify := true |} |} |}
       else {| http.Transport_ := None |}) ].

(** The credential of section 3 of the specification: the first
    non-empty of the configured token and the environment variable. *)
Definition resolvedToken (w : World) : option string :=
  if negb (config.AccessToken (Conf w) =? "")%string then
    Some (config.AccessToken (Conf w))
  else if negb (lookupEnv gitlabTokenEnvVariable (environ w) =? "")%string then
    Some (lookupEnv gitlabTokenEnvVariable (environ w))
  else None.

(** What the identifier field of the configuration becomes. *)
Definition identityResult (c : option gitlab_Client) (id : string)
  : option GitLabClient * option error :=
  if (id =? "")%string then (Some {| Client := c; ID := 0 |}, None)
  else
    match strconv.Atoi id with
    | (n, Some e) => (None, Some (errors_Wrapf e ("Invalid GitLab Snippet ID: " ++ fmt_d n)))
    | (n, None) => (Some {| Client := c; ID := n |}, None)
    end.

(** What the factory returns, by the credential and the answer of
    [gitlab.NewClient]. *)
Definition factoryResult (w : World) : option GitLabClient * option error :=
  match resolvedToken w with
  | None => (None, Some (fmt_Errorf access_token_is_empty))
  | Some t =>
      match gitlab_NewClient t (factoryOptions (Conf w)) with
      | (_, Some e) =>
          (None, Some (errors_Wrapf e ("Failed to create GitLab client: " ++ fmt_d 0)))
      | (c, None) => identityResult c (config.ID (Conf w))
      end
  end.

(** [errors.Cause] of github.com/pkg/errors: the error under every
    layer of context. *)
Fixpoint Cause (e : error) : error :=
  match e with
  | withMessage cause _ => Cause cause
  | _ => e
  end.

(** The line that UploadSnippet prints after a create. *)
Definition identityLine (id : Z) : string :=
  "GitLab Snippet ID: " ++ fmt_d id ++ newline.

(** Answers of a library that keeps its contract: a failed metadata
    request carries its response, a successful one carries the snippet
    with its time of last change; a successful create request carries
    the snippet. *)
Definition metadataAnswerOk
           (a : option gitlab.Snippet * option gitlab.Response * option error) : Prop :=
  match a with
  | (_, res, Some _) => res <> None
  | (sn, _, None) => exists s t, sn = Some s /\ gitlab.UpdatedAt s = Some t
  end.

Definition createAnswerOk
           (a : option gitlab.Snippet * option gitlab.Response * option error) : Prop :=
  match a with
  | (_, _, Some _) => True
  | (sn, _, None) => sn <> None
  end.

Definition honestLibrary : Prop :=
  (forall c id r, metadataAnswerOk (fst (Snippets_GetSnippet c id r))) /\
  (forall c opt r, createAnswerOk (fst (Snippets_CreateSnippet c opt r))).

(** The UploadSnippet calls of a sequence of pushes. *)
Definition pushes (contents : list string) : list Op :=
  map OpUploadSnippet contents.

End Sync.

Arguments Returned {A} a.
Arguments Panicked {A} p.

(** ** A transport double with canned answers

    The remote side is a list of answers; each request takes the next
    one when it is of its kind, and fails without a response
    otherwise.  The client records what the factory gave the
    constructor. *)
Module Double.

Record Handle : Type := {
  token : string;
  options : list gitlab.ClientOptionFunc
}.

Inductive Answer : Type :=
| AnswerSnippet (s : option gitlab.Snippet) (res : option gitlab.Response)
                (err : option error)
| AnswerContent (b : list byte) (res : option gitlab.Response) (err : option error).

Definition unreachable : error := errorString "dial tcp: connection refused".

Definition snippetAnswer (st : list Answer)
  : (option gitlab.Snippet * option gitlab.Response * option error) * list Answer :=
  match st with
  | AnswerSnippet s res err :: st' => ((s, res, err), st')
  | _ => ((None, None, Some unreachable), st)
  end.

Definition contentAnswer (st : list Answer)
  : (list byte * option gitlab.Response * option error) * list Answer :=
  match st with
  | AnswerContent b res err :: st' => ((b, res, err), st')
  | _ => (([], None, Some unreachable), st)
  end.

(** [strconv.Quote] on the printable ASCII strings without quotes and
    backslashes that the examples use. *)
Definition quote (s : string) : string := String "034"%char (s ++ String "034"%char "").

#[global] Instance api : GitLabAPI := {|
  gitlab_Client := Handle;
  Remote := list Answer;
  gitlab_NewClient := fun tok opts => (Some {| token := tok; options := opts |}, None);
  Snippets_GetSnippet := fun _ _ st => snippetAnswer st;
  Snippets_SnippetContent := fun _ _ st => contentAnswer st;
  Snippets_CreateSnippet := fun _ _ st => snippetAnswer st;
  Snippets_UpdateSnippet := fun _ _ _ st => snippetAnswer st;
  strconv_Quote := quote
|}.

Definition conf : config.GitLabConfig :=
  {| config.Url := "";
     config.SkipSsl := false;
     config.AccessToken := "glpat-config";
     config.ID := "";
     config.FileName := "pet-snippet.toml";
     config.Visibility := "private" |}.

Definition world (cf : config.GitLabConfig) (env : list (string * string))
           (answers : list Answer) : World :=
  {| Conf := cf; environ := env; remote := answers;
     calls := []; stdout := []; spinner := [] |}.

Definition theClient : Handle :=
  {| token := "glpat-config"; options := factoryOptions conf |}.

Definition stored (id : Z) (file : string) (t : option Time) : gitlab.Snippet :=
  {| gitlab.ID := id; gitlab.FileName := file; gitlab.UpdatedAt := t |}.

Definition status (n : Z) : option gitlab.Response := Some {| gitlab.StatusCode := n |}.

Definition confWith (tok id : string) : config.GitLabConfig :=
  {| config.Url := "";
     config.SkipSsl := false;
     config.AccessToken := tok;
     config.ID := id;
     config.FileName := "pet-snippet.toml";
     config.Visibility := "private" |}.

Definition envToken : list (string * string) :=
  [("HOME", "/home/pet"); ("PET_GITLAB_ACCESS_TOKEN", "glpat-env")].

Definition handle (tok : string) : Handle :=
  {| token := tok; options := factoryOptions conf |}.

(** A client without identity and a client bound to the snippet 7. *)
Definition unsetClient : GitLabClient := {| Client := Some theClient; ID := 0 |}.
Definition client7 : GitLabClient := {| Client := Some theClient; ID := 7 |}.

Definition notFound404 : error := errorString "404 Not Found".
Definition serverError500 : error := errorString "500 Internal Server Error".

(** The remote side answers the metadata request with the given
    failure. *)
Definition failing (res : option gitlab.Response) (err : error) : World :=
  world conf [] [AnswerSnippet None res (Some err)].

(** The remote side accepts two create requests and assigns the
    identities 42 and 43. *)
Definition creating : World :=
  world conf []
    [AnswerSnippet (Some (stored 42 "pet-snippet.toml" (Some 1700000000))) (status 201) None;
     AnswerSnippet (Some (stored 43 "pet-snippet.toml" (Some 1700000060))) (status 201) None].

(** The remote side holds the snippet 7 under the given file name, with
    the given content and time of last change. *)
Definition holding (file : string) (content : string) (t : option Time) : World :=
  world conf []
    [AnswerSnippet (Some (stored 7 file t)) (status 200) None;
     AnswerContent (list_byte_of_string content) (status 200) None].

End Double.

(** ** A transport double whose constructor checks the base URL

    As [Double], but [gitlab.NewClient] refuses a base URL that does
    not start with [http], the way the library refuses a URL it cannot
    parse. *)
Module Strict.

Definition badURL : error := errorString "first path segment in URL cannot contain colon".

Definition baseURLOk (o : gitlab.ClientOptionFunc) : bool :=
  match o with
  | gitlab.WithBaseURL u => String.prefix "http" u
  | gitlab.WithHTTPClient _ => true
  end.

Definition NewClient (tok : string) (opts : list gitlab.ClientOptionFunc)
  : option Double.Handle * option error :=
  if forallb baseURLOk opts
  then (Some {| Double.token := tok; Double.options := opts |}, None)
  else (None, Some badURL).

Definition api : GitLabAPI := {|
  gitlab_Client := Double.Handle;
  Remote := list Double.Answer;
  gitlab_NewClient := NewClient;
  Snippets_GetSnippet := fun _ _ st => Double.snippetAnswer st;
  Snippets_SnippetContent := fun _ _ st => Double.contentAnswer st;
  Snippets_CreateSnippet := fun _ _ st => Double.snippetAnswer st;
  Snippets_UpdateSnippet := fun _ _ _ st => Double.snippetAnswer st;
  strconv_Quote := Double.quote
|}.

Definition world (cf : config.GitLabConfig) (env : list (string * string))
           (answers : list Double.Answer) : @World api :=
  @Build_World api cf env answers [] [] [].

End Strict.

(** ** An in-memory snippet service

    A service that stores what it is sent: a create request stores a
    new snippet under the next free identity, an update request
    overwrites the stored one, and the two read requests answer from
    the store.  Every answer keeps the contract of the library: a
    failure carries its response (status 404), a success carries the
    snippet with its time of last change. *)
Module Fake.

Record Object : Type := {
  oid : Z;
  ofile : string;
  ocontent : string;
  oupdated : Time
}.

Record State : Type := {
  objects : list Object;
  nextID : Z;
  clock : Time
}.

Definition notFound : error := errorString "404 Not Found".

Definition find (id : Z) (st : State) : option Object :=
  List.find (fun o => oid o =? id) (objects st).

Definition metadata (o : Object) : gitlab.Snippet :=
  {| gitlab.ID := oid o; gitlab.FileName := ofile o;
     gitlab.UpdatedAt := Some (oupdated o) |}.

Definition orElse (s : option string) (d : string) : string :=
  match s with
  | Some x => x
  | None => d
  end.

Definition getSnippet (id : Z) (st : State)
  : (option gitlab.Snippet * option gitlab.Response * option error) * State :=
  match find id st with
  | Some o => ((Some (metadata o), Some {| gitlab.StatusCode := 200 |}, None), st)
  | None => ((None, Some {| gitlab.StatusCode := 404 |}, Some notFound), st)
  end.

Definition snippetContent (id : Z) (st : State)
  : (list byte * option gitlab.Response * option error) * State :=
  match find id st with
  | Some o =>
      ((list_byte_of_string (ocontent o), Some {| gitlab.StatusCode := 200 |}, None), st)
  | None => (([], Some {| gitlab.StatusCode := 404 |}, Some notFound), st)
  end.

Definition createSnippet (opt : gitlab.CreateSnippetOptions) (st : State)
  : (option gitlab.Snippet * option gitlab.Response * option error) * State :=
  let o := {| oid := nextID st;
              ofile := orElse (gitlab.cFileName opt) "";
              ocontent := orElse (gitlab.cContent opt) "";
              oupdated := clock st |} in
  ((Some (metadata o), Some {| gitlab.StatusCode := 201 |}, None),
   {| objects := o :: objects st; nextID := nextID st + 1; clock := clock st + 1 |}).

Definition overwrite (id : Z) (o' o : Object) : Object :=
  if oid o =? id then o' else o.

Definition updateSnippet (id : Z) (opt : gitlab.UpdateSnippetOptions) (st : State)
  : (option gitlab.Snippet * option gitlab.Response * option error) * State :=
  match find id st with
  | Some o =>
      let o' := {| oid := id;
                   ofile := orElse (gitlab.uFileName opt) (ofile o);
                   ocontent := orElse (gitlab.uContent opt) (ocontent o);
                   oupdated := clock st |} in
      ((Some (metadata o'), Some {| gitlab.StatusCode := 200 |}, None),
       {| objects := map (overwrite id o') (objects st);
          nextID := nextID st; clock := clock st + 1 |})
  | None => ((None, Some {| gitlab.StatusCode := 404 |}, Some notFound), st)
  end.

Definition api : GitLabAPI := {|
  gitlab_Client := Double.Handle;
  Remote := State;
  gitlab_NewClient := fun tok opts =>
    (Some {| Double.token := tok; Double.options := opts |}, None);
  Snippets_GetSnippet := fun _ id st => getSnippet id st;
  Snippets_SnippetContent := fun _ id st => snippetContent id st;
  Snippets_CreateSnippet := fun _ opt st => createSnippet opt st;
  Snippets_UpdateSnippet := fun _ id opt st => updateSnippet id opt st;
  strconv_Quote := Double.quote
|}.

(** A service that holds nothing yet and will assign the identity 101. *)
Definition empty : State := {| objects := []; nextID := 101; clock := 1700000000 |}.

Definition world (cf : config.GitLabConfig) (st : State) : @World api :=
  @Build_World api cf [] st [] [] [].

Definition client (id : Z) : @GitLabClient api :=
  @Build_GitLabClient api (Some Double.theClient) id.

End Fake.

(** ** Configurations and worlds of the further examples *)
Module Examples.

(** An endpoint the strict constructor refuses, and an identifier that
    is not a number. *)
Definition ftpConf : config.GitLabConfig :=
  {| config.Url := "ftp://gitlab.example.org/api/v4";
     config.SkipSsl := true;
     config.AccessToken := "glpat-config";
     config.ID := "seven";
     config.FileName := "pet-snippet.toml";
     config.Visibility := "private" |}.

(** The remote side holds the snippet 7 under the configured file name
    and answers the content request with the given failure. *)
Definition contentFailing (res : option gitlab.Response) (err : error) : World :=
  Double.world Double.conf []
    [Double.AnswerSnippet (Some (Double.stored 7 "pet-snippet.toml" None))
                          (Double.status 200) None;
     Double.AnswerContent [] res (Some err)].

(** The remote side answers one request with the given triple. *)
Definition answering (s : option gitlab.Snippet) (res : option gitlab.Response)
           (err : option error) : World :=
  Double.world Double.conf [] [Double.AnswerSnippet s res err].

(** A client value whose library client is nil. *)
Definition nilClient (id : Z) : GitLabClient := {| Client := None; ID := id |}.

(** A configuration that names its own endpoint and skips the
    certificate check, and the library client the recording
    constructor builds for it. *)
Definition ownEndpoint : config.GitLabConfig :=
  {| config.Url := "https://gitlab.example.org/api/v4";
     config.SkipSsl := true;
     config.AccessToken := "glpat-config";
     config.ID := "";
     config.FileName := "pet-snippet.toml";
     config.Visibility := "private" |}.

Definition ownHandle : Double.Handle :=
  {| Double.token := "glpat-config"; Double.options := factoryOptions ownEndpoint |}.

(** The in-memory service holding the snippet 7. *)
Definition stocked : Fake.State :=
  {| Fake.objects := [ {| Fake.oid := 7; Fake.ofile := "pet-snippet.toml";
                          Fake.ocontent := "ls"; Fake.oupdated := 1690000000 |} ];
     Fake.nextID := 101;
     Fake.clock := 1700000000 |}.

End Examples.

(** * Properties *)

Create HintDb go discriminated.

#[export] Hint Unfold bind ret reads writes panic deref defer
  config_Conf_GitLab os_Getenv fmt_Println fmt_Printf
  spinner_Start spinner_set_Suffix spinner_Stop : go.

(** Runs the monad's plumbing of the goal. *)
Ltac go_run := autounfold with go; cbn [fst snd].

(** Reads the fields of a world built by the primitives. *)
Ltac world_simpl :=
  cbn [fst snd Conf environ remote calls stdout spinner
       with_remote with_stdout with_spinner].

(** Splits on the string test [a =? b] at the head of the goal. *)
Ltac split_eqb a b :=
  let E := fresh "E" in
  destruct (String.eqb_spec a b) as [E | E]; cbn [negb].

(** Splits on the answer of [gitlab.NewClient], then on the identifier
    field and on the answer of [strconv.Atoi]. *)
Ltac factory_cases :=
  match goal with
  | |- context [gitlab_NewClient ?a ?b] =>
      let e := fresh "e" in
      destruct (gitlab_NewClient a b) as [? [e | ]]
  end; cbn [fst snd Conf with_stdout]; try reflexivity;
  match goal with
  | |- context [(?a =? "")%string] => split_eqb a ""
  end; cbn [fst snd Conf with_stdout]; try reflexivity;
  match goal with
  | |- context [strconv.Atoi ?a] =>
      let e := fresh "e" in
      destruct (strconv.Atoi a) as [? [e | ]]
  end; reflexivity.

(** ** strconv.Atoi and the [%d] verb *)

Lemma uintValue_mono (d : Decimal.uint) (acc : Z) :
  0 <= acc -> acc <= uintValue d acc.
Proof.
  revert acc. induction d; intros acc Hacc; cbn [uintValue]; try lia;
    match goal with
    | |- _ <= uintValue _ ?a => specialize (IHd a); lia
    end.
Qed.

Lemma parseUintLoop_digits (d : Decimal.uint) (acc : Z) :
  0 <= acc ->
  uintValue d acc <= strconv.maxUint64 ->
  strconv.parseUintLoop (NilEmpty.string_of_uint d) acc = strconv.UintOk (uintValue d acc).
Proof.
  revert acc.
  induction d; intros acc Hacc Hmax; cbn [uintValue NilEmpty.string_of_uint] in *;
    try reflexivity;
    match type of Hmax with
    | uintValue _ ?a <= _ =>
        pose proof (uintValue_mono d a ltac:(lia)) as Hm;
        specialize (IHd a ltac:(lia) Hmax)
    end;
    cbn [strconv.parseUintLoop];
    match goal with
    | |- context [Z.of_N (N_of_ascii ?c)] =>
        let v := eval vm_compute in (Z.of_N (N_of_ascii c)) in
        change (Z.of_N (N_of_ascii c)) with v
    end;
    change (strconv.maxUint64 / 10 + 1) with 1844674407370955162;
    change strconv.maxUint64 with 18446744073709551615 in *;
    cbn [Z.leb Z.compare Pos.compare Pos.compare_cont andb Z.sub Z.add Z.opp Z.pos_sub
         Pos.pred_double Z.double Z.succ_double Z.pred_double];
    (destruct (Z.leb_spec 1844674407370955162 acc); [ lia | ]);
    match goal with
    | |- context [18446744073709551615 <? ?n] =>
        destruct (Z.ltb_spec 18446744073709551615 n); [ lia | ]
    end;
    exact IHd.
Qed.

Lemma uintValue_of_lu (d d' : Decimal.uint) :
  uintValue d (Z.of_N (DecimalPos.Unsigned.of_lu d')) = Z.of_N (DecimalPos.Unsigned.of_lu (Decimal.revapp d d')).
Proof.
  revert d'. induction d; intros d'; cbn [uintValue Decimal.revapp]; try reflexivity;
    rewrite <- IHd; f_equal; cbn [DecimalPos.Unsigned.of_lu]; lia.
Qed.

Lemma uintValue_to_uint (p : positive) : uintValue (Pos.to_uint p) 0 = Z.pos p.
Proof.
  change 0 with (Z.of_N (DecimalPos.Unsigned.of_lu Decimal.Nil)).
  rewrite uintValue_of_lu. fold (Decimal.rev (Pos.to_uint p)).
  rewrite <- DecimalPos.Unsigned.of_uint_alt, DecimalPos.Unsigned.of_to. reflexivity.
Qed.

Lemma ParseUint_digits (d : Decimal.uint) :
  d <> Decimal.Nil ->
  uintValue d 0 <= strconv.maxUint64 ->
  strconv.ParseUint (NilEmpty.string_of_uint d) = strconv.UintOk (uintValue d 0).
Proof.
  intros Hd Hmax. rewrite <- (parseUintLoop_digits d 0 ltac:(lia) Hmax).
  destruct d; [ contradiction | .. ]; reflexivity.
Qed.

Lemma Atoi_digits (d : Decimal.uint) :
  d <> Decimal.Nil ->
  uintValue d 0 < 2 ^ 63 ->
  strconv.Atoi (NilEmpty.string_of_uint d) = (uintValue d 0, None).
Proof.
  intros Hd Hmax.
  assert (Hp := ParseUint_digits d Hd ltac:(unfold strconv.maxUint64; lia)).
  unfold strconv.Atoi.
  destruct d; [ contradiction | .. ];
    cbn [NilEmpty.string_of_uint] in *; cbn [Ascii.eqb Bool.eqb orb negb andb];
    rewrite Hp;
    match goal with
    | |- context [2 ^ 63 <=? ?v] => destruct (Z.leb_spec (2 ^ 63) v); [ lia | ]
    end;
    reflexivity.
Qed.

Lemma Atoi_minus_digits (d : Decimal.uint) :
  d <> Decimal.Nil ->
  uintValue d 0 <= 2 ^ 63 ->
  strconv.Atoi (String "-" (NilEmpty.string_of_uint d)) = (- uintValue d 0, None).
Proof.
  intros Hd Hmax.
  assert (Hp := ParseUint_digits d Hd ltac:(unfold strconv.maxUint64; lia)).
  unfold strconv.Atoi. cbn [Ascii.eqb Bool.eqb orb negb andb].
  rewrite Hp.
  destruct (Z.ltb_spec (2 ^ 63) (uintValue d 0)); [ lia | reflexivity ].
Qed.

(** [strconv.Atoi] reads back what [%d] prints, for every 64-bit [int]. *)
Lemma Atoi_fmt_d (n : Z) :
  - 2 ^ 63 <= n < 2 ^ 63 ->
  strconv.Atoi (fmt_d n) = (n, None).
Proof.
  intros Hn. unfold fmt_d. destruct n as [ | p | p ]; [ reflexivity | | ];
    cbn [Z.to_int NilZero.string_of_int NilZero.string_of_uint];
    pose proof (DecimalPos.Unsigned.to_uint_nonnil p) as Hnil;
    pose proof (uintValue_to_uint p) as Hv.
  - destruct (Pos.to_uint p) eqn:E; [ contradiction | .. ];
      rewrite <- Hv; apply Atoi_digits; try discriminate; lia.
  - change (Z.neg p) with (- Z.pos p). rewrite <- Hv.
    destruct (Pos.to_uint p) eqn:E; [ contradiction | .. ];
      apply Atoi_minus_digits; try discriminate; lia.
Qed.

(** ** The factory *)

Section Factory.

Context {api : GitLabAPI}.

Lemma getGitlabAccessToken_run (w : World) :
  getGitlabAccessToken w =
    (Returned
       match resolvedToken w with
       | Some t => (t, None)
       | None => ("", Some (errors_New "GitLab AccessToken not found in any source"))
       end, w).
Proof.
  unfold getGitlabAccessToken, resolvedToken. go_run.
  split_eqb (config.AccessToken (Conf w)) ""; [ | reflexivity ].
  split_eqb (lookupEnv gitlabTokenEnvVariable (environ w)) ""; reflexivity.
Qed.

Lemma resolvedToken_nonempty (w : World) (t : string) :
  resolvedToken w = Some t -> t <> "".
Proof.
  unfold resolvedToken.
  split_eqb (config.AccessToken (Conf w)) "".
  - split_eqb (lookupEnv gitlabTokenEnvVariable (environ w)) ""; congruence.
  - congruence.
Qed.

Lemma NewGitLabClient_result (w : World) :
  fst (NewGitLabClient w) = Returned (factoryResult w).
Proof.
  unfold NewGitLabClient, factoryResult, identityResult, factoryOptions.
  unfold bind at 1. rewrite getGitlabAccessToken_run.
  destruct (resolvedToken w) as [t | ]; [ | reflexivity ].
  go_run.
  split_eqb (config.Url (Conf w)) ""; cbn [Conf with_stdout];
    destruct (config.SkipSsl (Conf w));
    factory_cases.
Qed.

(** The factory leaves the process as it was, except that it prints
    the configured URL when there is one and a credential. *)
Lemma NewGitLabClient_world (w : World) :
  snd (NewGitLabClient w) =
    match resolvedToken w with
    | None => w
    | Some _ =>
        if (config.Url (Conf w) =? "")%string then w
        else with_stdout (config.Url (Conf w) ++ newline) w
    end.
Proof.
  unfold NewGitLabClient.
  unfold bind at 1. rewrite getGitlabAccessToken_run.
  destruct (resolvedToken w) as [t | ]; [ | reflexivity ].
  go_run.
  split_eqb (config.Url (Conf w)) ""; cbn [Conf with_stdout];
    destruct (config.SkipSsl (Conf w));
    factory_cases.
Qed.

(** The factory sends no request and leaves the remote side alone. *)
Lemma NewGitLabClient_no_network (w : World) :
  calls (snd (NewGitLabClient w)) = calls w /\
  remote (snd (NewGitLabClient w)) = remote w.
Proof.
  rewrite NewGitLabClient_world.
  destruct (resolvedToken w); [ | split; reflexivity ].
  destruct (config.Url (Conf w) =? "")%string; split; reflexivity.
Qed.

Lemma factory_client_from_token (w : World) (t : string) (g : GitLabClient) :
  resolvedToken w = Some t ->
  fst (NewGitLabClient w) = Returned (Some g, None) ->
  Client g = fst (gitlab_NewClient t (factoryOptions (Conf w))).
Proof.
  intros Ht Hg. rewrite NewGitLabClient_result in Hg.
  unfold factoryResult, identityResult in Hg. rewrite Ht in Hg.
  destruct (gitlab_NewClient t (factoryOptions (Conf w))) as [c [e | ]];
    [ discriminate | ].
  destruct (config.ID (Conf w) =? "")%string.
  - injection Hg as <-. reflexivity.
  - destruct (strconv.Atoi (config.ID (Conf w))) as [n [e | ]];
      [ discriminate | ].
    injection Hg as <-. reflexivity.
Qed.

(** C3. The credential is the first non-empty of the access token of
    the configuration record and the environment variable
    PET_GITLAB_ACCESS_TOKEN: with a configured token [T1] the resolved
    credential is [T1] whatever the environment holds, and a client the
    factory returns was built by [gitlab.NewClient] from [T1]; with no
    configured token and an environment token [T2] it is [T2]; with
    neither, the factory fails with the configuration error and leaves
    the process as it found it (no request sent, nothing printed). *)
Theorem credential_precedence (w : World) :
  let T1 := config.AccessToken (Conf w) in
  let T2 := lookupEnv gitlabTokenEnvVariable (environ w) in
  (T1 <> "" ->
     getGitlabAccessToken w = (Returned (T1, None), w) /\
     forall g, fst (NewGitLabClient w) = Returned (Some g, None) ->
               Client g = fst (gitlab_NewClient T1 (factoryOptions (Conf w)))) /\
  (T1 = "" -> T2 <> "" ->
     getGitlabAccessToken w = (Returned (T2, None), w) /\
     forall g, fst (NewGitLabClient w) = Returned (Some g, None) ->
               Client g = fst (gitlab_NewClient T2 (factoryOptions (Conf w)))) /\
  (T1 = "" -> T2 = "" ->
     (exists e, getGitlabAccessToken w = (Returned ("", Some e), w)) /\
     NewGitLabClient w = (Returned (None, Some (fmt_Errorf access_token_is_empty)), w)).
Proof.
  cbv zeta.
  assert (Hrun := getGitlabAccessToken_run w).
  assert (Hres := NewGitLabClient_result w).
  assert (Hw := NewGitLabClient_world w).
  assert (Hcl := factory_client_from_token w).
  unfold factoryResult in Hres. unfold resolvedToken in *.
  split; [ | split ].
  - intros H1. apply String.eqb_neq in H1. rewrite H1 in *. cbn [negb] in *.
    split; [ exact Hrun | ]. intros g Hg. apply Hcl; [ reflexivity | exact Hg ].
  - intros H1 H2. apply String.eqb_eq in H1. apply String.eqb_neq in H2.
    rewrite H1, H2 in *. cbn [negb] in *.
    split; [ exact Hrun | ]. intros g Hg. apply Hcl; [ reflexivity | exact Hg ].
  - intros H1 H2. apply String.eqb_eq in H1. apply String.eqb_eq in H2.
    rewrite H1, H2 in *. cbn [negb] in *.
    split; [ eexists; exact Hrun | ].
    destruct (NewGitLabClient w) as [o w']. cbn [fst snd] in *. congruence.
Qed.

End Factory.

(** C3 on three processes: both sources set, the environment only, none. *)
Lemma credential_precedence_witness :
  (getGitlabAccessToken (Double.world (Double.confWith "glpat-config" "") Double.envToken [])
   = (Returned ("glpat-config", None),
      Double.world (Double.confWith "glpat-config" "") Double.envToken [])) /\
  (getGitlabAccessToken (Double.world (Double.confWith "" "") Double.envToken [])
   = (Returned ("glpat-env", None),
      Double.world (Double.confWith "" "") Double.envToken [])) /\
  (NewGitLabClient (Double.world (Double.confWith "" "") [] [])
   = (Returned (None, Some (fmt_Errorf access_token_is_empty)),
      Double.world (Double.confWith "" "") [] [])).
Proof.
  split; [ | split ].
  - apply (credential_precedence
             (Double.world (Double.confWith "glpat-config" "") Double.envToken [])).
    discriminate.
  - apply (credential_precedence (Double.world (Double.confWith "" "") Double.envToken [])).
    + reflexivity.
    + discriminate.
  - apply (credential_precedence (Double.world (Double.confWith "" "") [] []));
      reflexivity.
Defined.

Section Identity.

Context {api : GitLabAPI}.

(** C7. When the credential resolves and [gitlab.NewClient] builds a
    client [c]: an empty identifier field gives the client [c] with
    identity 0; a non-empty field is read by [strconv.Atoi], whose
    success with [n] gives the client [c] bound to [n] and whose
    failure makes the factory fail with the error wrapped as "Invalid
    GitLab Snippet ID".  In particular the decimal writing of a 64-bit
    integer [n] gives the client bound to [n].  On each of these paths
    the factory sends no request and does not touch the remote side. *)
Theorem factory_identity (w : World) (t : string) (c : option gitlab_Client) :
  fst (getGitlabAccessToken w) = Returned (t, None) ->
  gitlab_NewClient t (factoryOptions (Conf w)) = (c, None) ->
  let id := config.ID (Conf w) in
  (id = "" ->
     fst (NewGitLabClient w) = Returned (Some {| Client := c; ID := 0 |}, None)) /\
  (forall n, id <> "" -> strconv.Atoi id = (n, None) ->
     fst (NewGitLabClient w) = Returned (Some {| Client := c; ID := n |}, None)) /\
  (forall n e, id <> "" -> strconv.Atoi id = (n, Some e) ->
     fst (NewGitLabClient w) =
       Returned (None, Some (errors_Wrapf e ("Invalid GitLab Snippet ID: " ++ fmt_d n)))) /\
  (forall n, - 2 ^ 63 <= n < 2 ^ 63 -> id = fmt_d n ->
     fst (NewGitLabClient w) = Returned (Some {| Client := c; ID := n |}, None)) /\
  calls (snd (NewGitLabClient w)) = calls w /\
  remote (snd (NewGitLabClient w)) = remote w.
Proof.
  intros Htok Hnew id. subst id.
  rewrite getGitlabAccessToken_run in Htok. cbn [fst] in Htok.
  assert (Hres : resolvedToken w = Some t).
  { destruct (resolvedToken w); inversion Htok; reflexivity. }
  rewrite NewGitLabClient_result. unfold factoryResult, identityResult.
  rewrite Hres, Hnew.
  repeat split; try apply NewGitLabClient_no_network.
  - intros ->. reflexivity.
  - intros n Hid Hn. apply String.eqb_neq in Hid. rewrite Hid, Hn. reflexivity.
  - intros n e Hid Hn. apply String.eqb_neq in Hid. rewrite Hid, Hn. reflexivity.
  - intros n Hn Hid. pose proof (Atoi_fmt_d n Hn) as Hatoi. rewrite <- Hid in Hatoi.
    rewrite Hatoi.
    destruct (String.eqb_spec (config.ID (Conf w)) "") as [E | E]; [ | reflexivity ].
    rewrite E in Hatoi. discriminate Hatoi.
Qed.

End Identity.

(** C7 on three configurations: no identifier, the identifier 42, and
    an identifier that is not a number. *)
Lemma factory_identity_witness :
  fst (NewGitLabClient (Double.world (Double.confWith "glpat-config" "") [] []))
  = Returned (Some {| Client := Some (Double.handle "glpat-config"); ID := 0 |}, None) /\
  fst (NewGitLabClient (Double.world (Double.confWith "glpat-config" "42") [] []))
  = Returned (Some {| Client := Some (Double.handle "glpat-config"); ID := 42 |}, None) /\
  fst (NewGitLabClient (Double.world (Double.confWith "glpat-config" "4x2") [] []))
  = Returned (None,
              Some (errors_Wrapf (NumError "Atoi" "4x2" strconv.ErrSyntax)
                                 "Invalid GitLab Snippet ID: 0")).
Proof.
  split; [ | split ].
  - exact (proj1 (factory_identity
                    (Double.world (Double.confWith "glpat-config" "") [] [])
                    "glpat-config" (Some (Double.handle "glpat-config"))
                    eq_refl eq_refl) eq_refl).
  - refine (proj1 (proj2 (factory_identity
                    (Double.world (Double.confWith "glpat-config" "42") [] [])
                    "glpat-config" (Some (Double.handle "glpat-config"))
                    eq_refl eq_refl)) 42 _ eq_refl).
    discriminate.
  - refine (proj1 (proj2 (proj2 (factory_identity
                    (Double.world (Double.confWith "glpat-config" "4x2") [] [])
                    "glpat-config" (Some (Double.handle "glpat-config"))
                    eq_refl eq_refl))) 0 (NumError "Atoi" "4x2" strconv.ErrSyntax)
                    _ eq_refl).
    discriminate.
Defined.

(** ** Fetch *)

#[export] Hint Unfold GetSnippet_request SnippetContent_request
  CreateSnippet_request UpdateSnippet_request : go.

Lemma string_of_bytes_empty (b : list byte) :
  string_of_bytes b = "" <-> b = [].
Proof.
  destruct b as [ | x b]; cbn; split; intros H; try reflexivity; discriminate.
Qed.

Section Fetch.

Context {api : GitLabAPI}.

(** C2. With identity 0, GetSnippet returns the empty snippet (no
    content, zero timestamp) and no error, for every remote side and
    every library client (a nil one too); it sends no request and the
    remote side is not touched. *)
Theorem GetSnippet_unset_identity (g : GitLabClient) (w : World) :
  ID g = 0 ->
  fst (GetSnippet g w) = Returned (Some Snippet_zero, None) /\
  Content Snippet_zero = "" /\
  UpdatedAt Snippet_zero = zeroTime /\
  calls (snd (GetSnippet g w)) = calls w /\
  remote (snd (GetSnippet g w)) = remote w.
Proof.
  intros Hid. unfold GetSnippet. go_run. rewrite Hid. cbn.
  repeat split; reflexivity.
Qed.

End Fetch.

(** C2 on a client without identity in front of an unreachable service. *)
Lemma GetSnippet_unset_identity_witness :
  fst (GetSnippet {| Client := Some Double.theClient; ID := 0 |}
                  (Double.world Double.conf [] []))
  = Returned (Some Snippet_zero, None) /\
  calls (snd (GetSnippet {| Client := Some Double.theClient; ID := 0 |}
                         (Double.world Double.conf [] []))) = [].
Proof.
  pose proof (GetSnippet_unset_identity
                {| Client := Some Double.theClient; ID := 0 |}
                (Double.world Double.conf [] []) eq_refl) as (H1 & _ & _ & H2 & _).
  split; [ exact H1 | exact H2 ].
Defined.

(** Closes a goal [run = Returned _ -> _] whose run ends otherwise. *)
Ltac run_refuted :=
  let H := fresh "H" in cbn; intros H; discriminate H.

(** Runs GetSnippet up to the metadata request, for a set identity
    [Hid] and a library client [Hc]. *)
Ltac fetch_run Hid Hc :=
  unfold GetSnippet; go_run;
  rewrite (proj2 (Z.eqb_neq _ _) Hid), Hc; world_simpl.

Section FetchErrors.

Context {api : GitLabAPI}.

Lemma GetSnippet_metadata_error (g : GitLabClient) (w : World) (c : gitlab_Client)
      (snippet : option gitlab.Snippet) (res : option gitlab.Response)
      (e : error) (rs : Remote) :
  ID g <> 0 ->
  Client g = Some c ->
  Snippets_GetSnippet c (ID g) (remote w) = ((snippet, res, Some e), rs) ->
  fst (GetSnippet g w) =
    match res with
    | None => Panicked NilDereference
    | Some r =>
        Returned (None, Some (errors_Wrapf e
          (if gitlab.StatusCode r =? 404
           then "No GitLab Snippet ID (" ++ fmt_d (ID g) ++ ")"
           else "Failed to get GitLab Snippet (ID: " ++ fmt_d (ID g) ++ ")")))
    end.
Proof.
  intros Hid Hc Hmeta. fetch_run Hid Hc. rewrite Hmeta. cbn.
  destruct res as [r | ]; [ | reflexivity ].
  destruct (gitlab.StatusCode r =? 404); reflexivity.
Qed.

(** C4. When the metadata request for a set identity fails with a
    response of status 404, GetSnippet fails with the error wrapped as
    "No GitLab Snippet ID (<identity>)"; with any other status it fails
    with the error wrapped as "Failed to get GitLab Snippet (ID:
    <identity>)".  Both messages carry the identity in decimal, and
    the message of the first differs from the message of every error
    of the second kind. *)
Theorem GetSnippet_not_found (g : GitLabClient) (w : World) (c : gitlab_Client)
      (snippet : option gitlab.Snippet) (res : gitlab.Response)
      (e : error) (rs : Remote) :
  ID g <> 0 ->
  Client g = Some c ->
  Snippets_GetSnippet c (ID g) (remote w) = ((snippet, Some res, Some e), rs) ->
  let notFound := errors_Wrapf e ("No GitLab Snippet ID (" ++ fmt_d (ID g) ++ ")") in
  let failed := errors_Wrapf e ("Failed to get GitLab Snippet (ID: " ++ fmt_d (ID g) ++ ")") in
  (gitlab.StatusCode res = 404 ->
     fst (GetSnippet g w) = Returned (None, Some notFound)) /\
  (gitlab.StatusCode res <> 404 ->
     fst (GetSnippet g w) = Returned (None, Some failed)) /\
  Error notFound = ("No GitLab Snippet ID (" ++ fmt_d (ID g) ++ ")") ++ ": " ++ Error e /\
  Error failed =
    ("Failed to get GitLab Snippet (ID: " ++ fmt_d (ID g) ++ ")") ++ ": " ++ Error e /\
  (forall e' id',
     Error notFound <>
     Error (errors_Wrapf e' ("Failed to get GitLab Snippet (ID: " ++ fmt_d id' ++ ")"))).
Proof.
  intros Hid Hc Hmeta notFound failed.
  rewrite (GetSnippet_metadata_error g w c snippet (Some res) e rs Hid Hc Hmeta).
  repeat split.
  - intros ->. reflexivity.
  - intros Hs. apply Z.eqb_neq in Hs. rewrite Hs. reflexivity.
  - intros e' id'. cbn. discriminate.
Qed.

(** C9. When the metadata request returns an error, GetSnippet reads
    the status of the response without a nil check: it panics with a
    nil dereference exactly when the failed request carries no
    response, and returns an error (and no snippet) when it carries
    one. *)
Theorem GetSnippet_error_needs_response (g : GitLabClient) (w : World)
      (c : gitlab_Client) (snippet : option gitlab.Snippet)
      (res : option gitlab.Response) (e : error) (rs : Remote) :
  ID g <> 0 ->
  Client g = Some c ->
  Snippets_GetSnippet c (ID g) (remote w) = ((snippet, res, Some e), rs) ->
  (res = None <-> fst (GetSnippet g w) = Panicked NilDereference) /\
  (res <> None <-> exists err, fst (GetSnippet g w) = Returned (None, Some err)).
Proof.
  intros Hid Hc Hmeta.
  rewrite (GetSnippet_metadata_error g w c snippet res e rs Hid Hc Hmeta).
  destruct res as [r | ]; split; split; intros H;
    try discriminate; try reflexivity.
  - eexists. reflexivity.
  - contradiction.
  - destruct H as [err H]. discriminate.
Qed.

End FetchErrors.

(** C4 on the snippet 7: a 404 answer and a 500 answer. *)
Lemma GetSnippet_not_found_witness :
  fst (GetSnippet Double.client7 (Double.failing (Double.status 404) Double.notFound404))
  = Returned (None, Some (withMessage Double.notFound404 "No GitLab Snippet ID (7)")) /\
  fst (GetSnippet Double.client7 (Double.failing (Double.status 500) Double.serverError500))
  = Returned (None, Some (withMessage Double.serverError500
                                      "Failed to get GitLab Snippet (ID: 7)")).
Proof.
  split.
  - refine (proj1 (GetSnippet_not_found Double.client7
                     (Double.failing (Double.status 404) Double.notFound404)
                     Double.theClient None {| gitlab.StatusCode := 404 |}
                     Double.notFound404 [] _ eq_refl eq_refl) eq_refl).
    discriminate.
  - refine (proj1 (proj2 (GetSnippet_not_found Double.client7
                     (Double.failing (Double.status 500) Double.serverError500)
                     Double.theClient None {| gitlab.StatusCode := 500 |}
                     Double.serverError500 [] _ eq_refl eq_refl)) _);
      discriminate.
Defined.

(** C9 on the snippet 7: a failure without a response (connection
    refused) and a failure with one. *)
Lemma GetSnippet_error_needs_response_witness :
  fst (GetSnippet Double.client7 (Double.failing None Double.unreachable))
  = Panicked NilDereference /\
  exists err,
    fst (GetSnippet Double.client7 (Double.failing (Double.status 500) Double.serverError500))
    = Returned (None, Some err).
Proof.
  split.
  - refine (proj1 (proj1 (GetSnippet_error_needs_response Double.client7
                     (Double.failing None Double.unreachable)
                     Double.theClient None None Double.unreachable [] _ eq_refl eq_refl))
                  eq_refl).
    discriminate.
  - refine (proj1 (proj2 (GetSnippet_error_needs_response Double.client7
                     (Double.failing (Double.status 500) Double.serverError500)
                     Double.theClient None (Double.status 500) Double.serverError500 []
                     _ eq_refl eq_refl)) _);
      discriminate.
Defined.

Section FetchContent.

Context {api : GitLabAPI}.

(** C5. When the metadata request succeeds with a snippet whose file
    name is not the configured one, GetSnippet returns no snippet and
    the error "No snippet file in GitLab Snippet (ID: <identity>)"; the
    content is not requested. *)
Theorem GetSnippet_filename_mismatch (g : GitLabClient) (w : World)
      (c : gitlab_Client) (snippet : gitlab.Snippet)
      (res : option gitlab.Response) (rs : Remote) :
  ID g <> 0 ->
  Client g = Some c ->
  Snippets_GetSnippet c (ID g) (remote w) = ((Some snippet, res, None), rs) ->
  gitlab.FileName snippet <> config.FileName (Conf w) ->
  fst (GetSnippet g w) =
    Returned (None, Some (fmt_Errorf
      ("No snippet file in GitLab Snippet (ID: " ++ fmt_d (ID g) ++ ")"))) /\
  calls (snd (GetSnippet g w)) = (calls w ++ [CallGetSnippet c (ID g)])%list.
Proof.
  intros Hid Hc Hmeta Hname. fetch_run Hid Hc. rewrite Hmeta.
  world_simpl.
  apply String.eqb_neq in Hname. rewrite Hname. cbn. split; reflexivity.
Qed.

Lemma GetSnippet_content_run (g : GitLabClient) (w : World)
      (c : gitlab_Client) (snippet : gitlab.Snippet)
      (res res' : option gitlab.Response) (rs rs' : Remote) (payload : list byte) :
  ID g <> 0 ->
  Client g = Some c ->
  Snippets_GetSnippet c (ID g) (remote w) = ((Some snippet, res, None), rs) ->
  gitlab.FileName snippet = config.FileName (Conf w) ->
  Snippets_SnippetContent c (ID g) rs = ((payload, res', None), rs') ->
  fst (GetSnippet g w) =
    if (string_of_bytes payload =? "")%string then
      Returned (None, Some (fmt_Errorf (config.FileName (Conf w) ++ " is empty")))
    else
      match gitlab.UpdatedAt snippet with
      | Some t => Returned (Some {| Content := string_of_bytes payload; UpdatedAt := t |}, None)
      | None => Panicked NilDereference
      end.
Proof.
  intros Hid Hc Hmeta Hname Hcontent. fetch_run Hid Hc. rewrite Hmeta.
  world_simpl.
  apply String.eqb_eq in Hname. rewrite Hname. cbn [negb].
  world_simpl. rewrite Hcontent.
  destruct (string_of_bytes payload =? "")%string; [ reflexivity | ].
  destruct (gitlab.UpdatedAt snippet); reflexivity.
Qed.

(** With a set identity, a snippet that GetSnippet returns has content. *)
Lemma GetSnippet_never_empty (g : GitLabClient) (w : World)
      (s : Snippet) (err : option error) :
  ID g <> 0 ->
  fst (GetSnippet g w) = Returned (Some s, err) ->
  Content s <> "".
Proof.
  intros Hid. unfold GetSnippet. go_run.
  rewrite (proj2 (Z.eqb_neq _ _) Hid). world_simpl.
  destruct (Client g) as [c | ]; [ | run_refuted ]. world_simpl.
  destruct (Snippets_GetSnippet c (ID g) (remote w)) as [[[sn res] [e | ]] rs].
  - destruct res as [r | ]; [ | run_refuted ].
    destruct (gitlab.StatusCode r =? 404); run_refuted.
  - destruct sn as [sn | ]; [ | run_refuted ].
    world_simpl.
    destruct (gitlab.FileName sn =? config.FileName (Conf w))%string;
      [ | run_refuted ].
    cbn [negb]. world_simpl.
    destruct (Snippets_SnippetContent c (ID g) rs) as [[[b res'] [e | ]] rs'];
      [ run_refuted | ].
    destruct (String.eqb_spec (string_of_bytes b) "") as [E | E];
      [ run_refuted | ].
    destruct (gitlab.UpdatedAt sn); [ | run_refuted ].
    cbn. intros H. injection H as <- _. exact E.
Qed.

(** C6. When the metadata request succeeds with the configured file
    name and the content request succeeds: an empty payload makes
    GetSnippet fail with "<filename> is empty" and return no snippet; a
    non-empty payload is returned as the Content of a snippet whose
    UpdatedAt is the time of last change of the remote snippet, with
    no error.  No snippet that GetSnippet returns for a set identity
    has empty content. *)
Theorem GetSnippet_content (g : GitLabClient) (w : World)
      (c : gitlab_Client) (snippet : gitlab.Snippet)
      (res res' : option gitlab.Response) (rs rs' : Remote) (payload : list byte) :
  ID g <> 0 ->
  Client g = Some c ->
  Snippets_GetSnippet c (ID g) (remote w) = ((Some snippet, res, None), rs) ->
  gitlab.FileName snippet = config.FileName (Conf w) ->
  Snippets_SnippetContent c (ID g) rs = ((payload, res', None), rs') ->
  (payload = [] ->
     fst (GetSnippet g w) =
       Returned (None, Some (fmt_Errorf (config.FileName (Conf w) ++ " is empty")))) /\
  (forall t, payload <> [] -> gitlab.UpdatedAt snippet = Some t ->
     fst (GetSnippet g w) =
       Returned (Some {| Content := string_of_bytes payload; UpdatedAt := t |}, None)) /\
  (forall s err, fst (GetSnippet g w) = Returned (Some s, err) -> Content s <> "").
Proof.
  intros Hid Hc Hmeta Hname Hcontent.
  rewrite (GetSnippet_content_run g w c snippet res res' rs rs' payload
             Hid Hc Hmeta Hname Hcontent).
  split; [ | split ].
  - intros ->. reflexivity.
  - intros t Hp Ht.
    destruct (String.eqb_spec (string_of_bytes payload) "") as [E | E].
    + apply string_of_bytes_empty in E. contradiction.
    + rewrite Ht. reflexivity.
  - intros s err H. apply (GetSnippet_never_empty g w s err Hid).
    rewrite (GetSnippet_content_run g w c snippet res res' rs rs' payload
               Hid Hc Hmeta Hname Hcontent).
    exact H.
Qed.

(** C10. On the success path GetSnippet reads through the UpdatedAt
    pointer of the remote snippet without a nil check: with the
    configured file name and a non-empty content, it returns the
    snippet exactly when the metadata carry a time of last change, and
    panics with a nil dereference exactly when they carry none. *)
Theorem GetSnippet_needs_UpdatedAt (g : GitLabClient) (w : World)
      (c : gitlab_Client) (snippet : gitlab.Snippet)
      (res res' : option gitlab.Response) (rs rs' : Remote) (payload : list byte) :
  ID g <> 0 ->
  Client g = Some c ->
  Snippets_GetSnippet c (ID g) (remote w) = ((Some snippet, res, None), rs) ->
  gitlab.FileName snippet = config.FileName (Conf w) ->
  Snippets_SnippetContent c (ID g) rs = ((payload, res', None), rs') ->
  payload <> [] ->
  (gitlab.UpdatedAt snippet = None <-> fst (GetSnippet g w) = Panicked NilDereference) /\
  (forall t, gitlab.UpdatedAt snippet = Some t <->
             fst (GetSnippet g w) =
               Returned (Some {| Content := string_of_bytes payload; UpdatedAt := t |}, None)).
Proof.
  intros Hid Hc Hmeta Hname Hcontent Hp.
  rewrite (GetSnippet_content_run g w c snippet res res' rs rs' payload
             Hid Hc Hmeta Hname Hcontent).
  destruct (String.eqb_spec (string_of_bytes payload) "") as [E | E].
  { apply string_of_bytes_empty in E. contradiction. }
  destruct (gitlab.UpdatedAt snippet) as [t0 | ]; split; try intros t; split; intros H;
    try discriminate; try reflexivity.
  - injection H as ->. reflexivity.
  - injection H as ->. reflexivity.
Qed.

End FetchContent.

(** C5 on the snippet 7 stored under another file name. *)
Lemma GetSnippet_filename_mismatch_witness :
  fst (GetSnippet Double.client7 (Double.holding "notes.txt" "ls -la" (Some 1700000000)))
  = Returned (None, Some (fmt_Errorf "No snippet file in GitLab Snippet (ID: 7)")) /\
  calls (snd (GetSnippet Double.client7
                         (Double.holding "notes.txt" "ls -la" (Some 1700000000))))
  = [CallGetSnippet Double.theClient 7].
Proof.
  refine (GetSnippet_filename_mismatch Double.client7
            (Double.holding "notes.txt" "ls -la" (Some 1700000000))
            Double.theClient (Double.stored 7 "notes.txt" (Some 1700000000))
            (Double.status 200)
            [Double.AnswerContent (list_byte_of_string "ls -la") (Double.status 200) None]
            _ eq_refl eq_refl _);
    discriminate.
Defined.

(** C6 on the snippet 7: stored empty, and stored with a command. *)
Lemma GetSnippet_content_witness :
  fst (GetSnippet Double.client7 (Double.holding "pet-snippet.toml" "" (Some 1700000000)))
  = Returned (None, Some (fmt_Errorf "pet-snippet.toml is empty")) /\
  fst (GetSnippet Double.client7
                  (Double.holding "pet-snippet.toml" "ls -la" (Some 1700000000)))
  = Returned (Some {| Content := "ls -la"; UpdatedAt := 1700000000 |}, None).
Proof.
  split.
  - refine (proj1 (GetSnippet_content Double.client7
                     (Double.holding "pet-snippet.toml" "" (Some 1700000000))
                     Double.theClient (Double.stored 7 "pet-snippet.toml" (Some 1700000000))
                     (Double.status 200) (Double.status 200)
                     [Double.AnswerContent [] (Double.status 200) None] [] []
                     _ eq_refl eq_refl eq_refl eq_refl) eq_refl).
    discriminate.
  - refine (proj1 (proj2 (GetSnippet_content Double.client7
                     (Double.holding "pet-snippet.toml" "ls -la" (Some 1700000000))
                     Double.theClient (Double.stored 7 "pet-snippet.toml" (Some 1700000000))
                     (Double.status 200) (Double.status 200)
                     [Double.AnswerContent (list_byte_of_string "ls -la")
                                           (Double.status 200) None] []
                     (list_byte_of_string "ls -la")
                     _ eq_refl eq_refl eq_refl eq_refl)) 1700000000 _ eq_refl);
      discriminate.
Defined.

(** C10 on the snippet 7: metadata without a time of last change, and
    with one. *)
Lemma GetSnippet_needs_UpdatedAt_witness :
  fst (GetSnippet Double.client7 (Double.holding "pet-snippet.toml" "ls -la" None))
  = Panicked NilDereference /\
  fst (GetSnippet Double.client7
                  (Double.holding "pet-snippet.toml" "ls -la" (Some 1700000000)))
  = Returned (Some {| Content := "ls -la"; UpdatedAt := 1700000000 |}, None).
Proof.
  split.
  - refine (proj1 (proj1 (GetSnippet_needs_UpdatedAt Double.client7
                     (Double.holding "pet-snippet.toml" "ls -la" None)
                     Double.theClient (Double.stored 7 "pet-snippet.toml" None)
                     (Double.status 200) (Double.status 200)
                     [Double.AnswerContent (list_byte_of_string "ls -la")
                                           (Double.status 200) None] []
                     (list_byte_of_string "ls -la")
                     _ eq_refl eq_refl eq_refl eq_refl _)) eq_refl);
      discriminate.
  - refine (proj1 (proj2 (GetSnippet_needs_UpdatedAt Double.client7
                     (Double.holding "pet-snippet.toml" "ls -la" (Some 1700000000))
                     Double.theClient (Double.stored 7 "pet-snippet.toml" (Some 1700000000))
                     (Double.status 200) (Double.status 200)
                     [Double.AnswerContent (list_byte_of_string "ls -la")
                                           (Double.status 200) None] []
                     (list_byte_of_string "ls -la")
                     _ eq_refl eq_refl eq_refl eq_refl _) 1700000000) eq_refl);
      discriminate.
Defined.

(** ** Push *)

Section Push.

Context {api : GitLabAPI}.

Lemma UploadSnippet_create_run (g : GitLabClient) (content : string) (w : World)
      (c : gitlab_Client) :
  ID g = 0 ->
  Client g = Some c ->
  calls (snd (UploadSnippet g content w)) =
    (calls w ++ [CallCreateSnippet c (createOptions (Conf w) content)])%list /\
  Conf (snd (UploadSnippet g content w)) = Conf w /\
  remote (snd (UploadSnippet g content w)) =
    snd (Snippets_CreateSnippet c (createOptions (Conf w) content) (remote w)) /\
  forall created res,
    fst (Snippets_CreateSnippet c (createOptions (Conf w) content) (remote w))
      = (Some created, res, None) ->
    fst (UploadSnippet g content w) = Returned None /\
    stdout (snd (UploadSnippet g content w)) =
      (stdout w ++ [("GitLab Snippet ID: " ++ fmt_d (gitlab.ID created) ++ newline)%string])%list.
Proof.
  intros Hid Hc. unfold UploadSnippet, createSnippet. rewrite Hid. cbn [Z.eqb].
  go_run. rewrite Hc. world_simpl.
  unfold gitlab.String, gitlab.Visibility, gitlab.VisibilityValue, createOptions.
  match goal with
  | |- context [Snippets_CreateSnippet c ?o (remote w)] =>
      destruct (Snippets_CreateSnippet c o (remote w)) as [[[r res] err] rs]
  end.
  world_simpl.
  destruct err as [e | ]; [ | destruct r as [r | ] ]; cbn;
    (split; [ reflexivity | split; [ reflexivity | split; [ reflexivity | ] ] ]);
    intros created res0 H; inversion H; subst.
  split; reflexivity.
Qed.

Lemma UploadSnippet_update_run (g : GitLabClient) (content : string) (w : World)
      (c : gitlab_Client) :
  ID g <> 0 ->
  Client g = Some c ->
  calls (snd (UploadSnippet g content w)) =
    (calls w ++ [CallUpdateSnippet c (ID g) (updateOptions (Conf w) content)])%list.
Proof.
  intros Hid Hc. unfold UploadSnippet, updateSnippet.
  rewrite (proj2 (Z.eqb_neq _ _) Hid).
  go_run. rewrite Hc. world_simpl.
  unfold gitlab.String, gitlab.Visibility, gitlab.VisibilityValue, updateOptions.
  match goal with
  | |- context [Snippets_UpdateSnippet c (ID g) ?o (remote w)] =>
      destruct (Snippets_UpdateSnippet c (ID g) o (remote w)) as [[[r res] err] rs]
  end.
  world_simpl.
  destruct err as [e | ]; reflexivity.
Qed.

Lemma perform_world (g : GitLabClient) (op : Op) (w : World) :
  snd (perform g op w) =
    match op with
    | OpGetSnippet => snd (GetSnippet g w)
    | OpUploadSnippet content => snd (UploadSnippet g content w)
    end.
Proof.
  destruct op as [ | content]; unfold perform, bind.
  - destruct (GetSnippet g w) as [[[s e] | p] w']; reflexivity.
  - destruct (UploadSnippet g content w) as [[e | p] w']; reflexivity.
Qed.

Lemma perform_returns (g : GitLabClient) (content : string) (w : World)
      (err : option error) :
  fst (UploadSnippet g content w) = Returned err ->
  fst (perform g (OpUploadSnippet content) w) = Returned (ResUploadSnippet err).
Proof.
  unfold perform, bind.
  destruct (UploadSnippet g content w) as [[e | p] w']; cbn; congruence.
Qed.

Lemma session_cons (g : GitLabClient) (op : Op) (ops : list Op) (w : World) :
  snd (session g (op :: ops) w) =
    match fst (perform g op w) with
    | Returned _ => snd (session g ops (snd (perform g op w)))
    | Panicked _ => snd (perform g op w)
    end.
Proof.
  cbn [session]. unfold bind at 1.
  destruct (perform g op w) as [[r | p] w1]; cbn [fst snd]; [ | reflexivity ].
  unfold bind, ret.
  destruct (session g ops w1) as [[rs | p] w2]; reflexivity.
Qed.

(** C1, as the code has it.  For a client with identity 0 whose create
    request succeeds, the first UploadSnippet returns no error and
    prints the identity that the service assigned ("GitLab Snippet ID:
    <id>"); the client keeps identity 0, so a second UploadSnippet on
    the same client sends a create request again: the two pushes send
    two create requests and no update request.  A client that carries
    the printed identity, when it is not 0, sends an update request for
    that identity. *)
Theorem UploadSnippet_create_then_create (g : GitLabClient) (w : World)
      (c : gitlab_Client) (C C2 : string)
      (created : gitlab.Snippet) (res : option gitlab.Response) :
  ID g = 0 ->
  Client g = Some c ->
  fst (Snippets_CreateSnippet c (createOptions (Conf w) C) (remote w))
    = (Some created, res, None) ->
  let w1 := snd (UploadSnippet g C w) in
  let w2 := snd (session g [OpUploadSnippet C; OpUploadSnippet C2] w) in
  fst (UploadSnippet g C w) = Returned None /\
  stdout w1 =
    (stdout w ++ [("GitLab Snippet ID: " ++ fmt_d (gitlab.ID created) ++ newline)%string])%list /\
  sentBetween w w1 [CallCreateSnippet c (createOptions (Conf w) C)] /\
  sentBetween w1 (snd (UploadSnippet g C2 w1))
              [CallCreateSnippet c (createOptions (Conf w) C2)] /\
  (exists sent, sentBetween w w2 sent /\ createCalls sent = 2%nat /\ updateCalls sent = 0%nat) /\
  (gitlab.ID created <> 0 ->
   sentBetween w1
     (snd (UploadSnippet {| Client := Client g; ID := gitlab.ID created |} C2 w1))
     [CallUpdateSnippet c (gitlab.ID created) (updateOptions (Conf w) C2)]).
Proof.
  intros Hid Hc Hcreate w1 w2.
  destruct (UploadSnippet_create_run g C w c Hid Hc) as (Hcalls & Hconf & _ & Hok).
  destruct (Hok created res Hcreate) as (Hret & Hout).
  destruct (UploadSnippet_create_run g C2 w1 c Hid Hc) as (Hcalls2 & _ & _ & _).
  fold w1 in Hcalls, Hconf, Hout. rewrite Hconf in Hcalls2.
  repeat split; try assumption.
  - exists [CallCreateSnippet c (createOptions (Conf w) C);
            CallCreateSnippet c (createOptions (Conf w) C2)].
    repeat split; try reflexivity.
    unfold sentBetween. subst w2.
    rewrite session_cons, (perform_returns g C w None Hret), perform_world.
    fold w1. rewrite session_cons.
    assert (Hnil : forall w', snd (session g [] w') = w') by reflexivity.
    rewrite Hnil, perform_world.
    destruct (fst (perform g (OpUploadSnippet C2) w1));
      rewrite Hcalls2, Hcalls, <- app_assoc; reflexivity.
  - intros Hnz. unfold sentBetween.
    rewrite (UploadSnippet_update_run
               {| Client := Client g; ID := gitlab.ID created |} C2 w1 c Hnz Hc).
    cbn [ID]. rewrite Hconf. reflexivity.
Qed.

End Push.

(** C1 on a client without identity and a service that assigns 42. *)
Lemma UploadSnippet_create_then_create_witness :
  fst (UploadSnippet Double.unsetClient "ls -la" Double.creating) = Returned None /\
  stdout (snd (UploadSnippet Double.unsetClient "ls -la" Double.creating))
  = [("GitLab Snippet ID: 42" ++ newline)%string] /\
  calls (snd (UploadSnippet Double.unsetClient "ls -lah"
                (snd (UploadSnippet Double.unsetClient "ls -la" Double.creating))))
  = [CallCreateSnippet Double.theClient (createOptions Double.conf "ls -la");
     CallCreateSnippet Double.theClient (createOptions Double.conf "ls -lah")].
Proof.
  pose proof (UploadSnippet_create_then_create Double.unsetClient Double.creating
                Double.theClient "ls -la" "ls -lah"
                (Double.stored 42 "pet-snippet.toml" (Some 1700000000))
                (Double.status 201) eq_refl eq_refl eq_refl)
    as (H1 & H2 & H3 & H4 & _).
  split; [ exact H1 | split; [ exact H2 | ] ].
  unfold sentBetween in H3, H4. rewrite H4, H3. reflexivity.
Defined.

(** C1 fails as stated: on a client without identity, after a first
    push that succeeds (the service assigns 42), the second push on the
    same client creates again.  The two pushes send two create
    requests and no update request. *)
Lemma push_twice_counterexample :
  ID Double.unsetClient = 0 /\
  fst (UploadSnippet Double.unsetClient "ls -la" Double.creating) = Returned None /\
  createCalls (calls (snd (session Double.unsetClient
                             [OpUploadSnippet "ls -la"; OpUploadSnippet "ls -lah"]
                             Double.creating))) = 2%nat /\
  updateCalls (calls (snd (session Double.unsetClient
                             [OpUploadSnippet "ls -la"; OpUploadSnippet "ls -lah"]
                             Double.creating))) = 0%nat /\
  ~ (createCalls (calls (snd (session Double.unsetClient
                                [OpUploadSnippet "ls -la"; OpUploadSnippet "ls -lah"]
                                Double.creating))) = 1%nat /\
     updateCalls (calls (snd (session Double.unsetClient
                                [OpUploadSnippet "ls -la"; OpUploadSnippet "ls -lah"]
                                Double.creating))) = 1%nat).
Proof.
  repeat split; try reflexivity.
  intros [H _]. vm_compute in H. discriminate H.
Qed.

(** ** The client value across calls *)

Section Frame.

Context {api : GitLabAPI}.

Lemma sentBetween_nil (w w' : World) :
  calls w' = calls w -> sentBetween w w' [].
Proof. intros H. unfold sentBetween. rewrite H, app_nil_r. reflexivity. Qed.

Lemma sentBetween_trans (w w1 w2 : World) (s1 s2 : list Call) :
  sentBetween w w1 s1 -> sentBetween w1 w2 s2 -> sentBetween w w2 (s1 ++ s2)%list.
Proof.
  unfold sentBetween. intros H1 H2. rewrite H2, H1, app_assoc. reflexivity.
Qed.

Lemma GetSnippet_sent (g : GitLabClient) (w : World) :
  exists sent, sentBetween w (snd (GetSnippet g w)) sent /\ Forall (sentFor g) sent.
Proof.
  unfold GetSnippet. go_run.
  destruct (Z.eqb_spec (ID g) 0) as [Hid | Hid].
  { exists []. split; [ apply sentBetween_nil; reflexivity | constructor ]. }
  world_simpl.
  destruct (Client g) as [c | ] eqn:Hc.
  2:{ exists []. split; [ apply sentBetween_nil; reflexivity | constructor ]. }
  world_simpl.
  assert (Hmeta : sentFor g (CallGetSnippet c (ID g))) by (cbn; auto).
  assert (Hcont : sentFor g (CallSnippetContent c (ID g))) by (cbn; auto).
  destruct (Snippets_GetSnippet c (ID g) (remote w)) as [[[sn res] [e | ]] rs];
    world_simpl.
  - exists [CallGetSnippet c (ID g)]. split; [ | auto ].
    destruct res as [r | ]; [ destruct (gitlab.StatusCode r =? 404) | ]; reflexivity.
  - destruct sn as [sn | ];
      [ | exists [CallGetSnippet c (ID g)]; split; [ reflexivity | auto ] ].
    world_simpl.
    destruct (gitlab.FileName sn =? config.FileName (Conf w))%string; cbn [negb];
      [ | exists [CallGetSnippet c (ID g)]; split; [ reflexivity | auto ] ].
    world_simpl.
    exists [CallGetSnippet c (ID g); CallSnippetContent c (ID g)]. split; [ | auto ].
    destruct (Snippets_SnippetContent c (ID g) rs) as [[[b res'] [e | ]] rs'];
      unfold sentBetween; world_simpl;
      [ rewrite <- app_assoc; reflexivity | ].
    destruct (string_of_bytes b =? "")%string;
      [ | destruct (gitlab.UpdatedAt sn) ];
      world_simpl; rewrite <- app_assoc; reflexivity.
Qed.

Lemma UploadSnippet_sent (g : GitLabClient) (content : string) (w : World) :
  exists sent,
    sentBetween w (snd (UploadSnippet g content w)) sent /\ Forall (sentFor g) sent.
Proof.
  destruct (Client g) as [c | ] eqn:Hc.
  - destruct (Z.eq_dec (ID g) 0) as [Hid | Hid].
    + exists [CallCreateSnippet c (createOptions (Conf w) content)].
      split; [ apply (UploadSnippet_create_run g content w c Hid Hc) | ].
      constructor; [ cbn; auto | constructor ].
    + exists [CallUpdateSnippet c (ID g) (updateOptions (Conf w) content)].
      split; [ apply (UploadSnippet_update_run g content w c Hid Hc) | ].
      constructor; [ cbn; auto | constructor ].
  - exists []. split; [ | constructor ].
    apply sentBetween_nil.
    unfold UploadSnippet, createSnippet, updateSnippet. go_run. rewrite Hc.
    destruct (ID g =? 0); reflexivity.
Qed.

Lemma perform_sent (g : GitLabClient) (op : Op) (w : World) :
  exists sent, sentBetween w (snd (perform g op w)) sent /\ Forall (sentFor g) sent.
Proof.
  rewrite perform_world. destruct op as [ | content].
  - apply GetSnippet_sent.
  - apply UploadSnippet_sent.
Qed.

(** C8.  No call changes the client: in any sequence of GetSnippet and
    UploadSnippet calls on a client value, every request that is sent
    is one for the pair (Client, ID) the sequence started with.  A
    create request is sent only while that ID is 0, so a client
    without identity never sends an update request, whatever its
    create requests returned, and a client with an identity never
    sends a create request. *)
Theorem session_keeps_identity (g : GitLabClient) (ops : list Op) (w : World) :
  exists sent,
    sentBetween w (snd (session g ops w)) sent /\
    Forall (sentFor g) sent /\
    (ID g = 0 -> updateCalls sent = 0%nat /\ createCalls sent = length sent) /\
    (ID g <> 0 -> createCalls sent = 0%nat).
Proof.
  assert (Hcount : forall sent, Forall (sentFor g) sent ->
            (ID g = 0 -> updateCalls sent = 0%nat /\ createCalls sent = length sent) /\
            (ID g <> 0 -> createCalls sent = 0%nat)).
  { unfold updateCalls, createCalls.
    induction 1 as [ | call sent Hcall _ [IH0 IH1] ]; [ split; intros; auto | ].
    split; intros Hid.
    - destruct (IH0 Hid) as [IHu IHc].
      destruct call; cbn in Hcall |- *; try (exfalso; tauto).
      split; [ exact IHu | rewrite IHc; reflexivity ].
    - specialize (IH1 Hid).
      destruct call; cbn in Hcall |- *; try exact IH1. exfalso; tauto. }
  enough (H : exists sent,
             sentBetween w (snd (session g ops w)) sent /\ Forall (sentFor g) sent).
  { destruct H as (sent & Hs & Hf). exists sent.
    split; [ exact Hs | split; [ exact Hf | exact (Hcount sent Hf) ] ]. }
  revert w. induction ops as [ | op ops IH]; intros w.
  - exists []. split; [ apply sentBetween_nil; reflexivity | constructor ].
  - rewrite session_cons.
    destruct (perform_sent g op w) as (s1 & Hs1 & Hf1).
    destruct (fst (perform g op w)) as [r | p].
    + destruct (IH (snd (perform g op w))) as (s2 & Hs2 & Hf2).
      exists (s1 ++ s2)%list. split.
      * exact (sentBetween_trans _ _ _ _ _ Hs1 Hs2).
      * apply Forall_app. split; assumption.
    + exists s1. split; assumption.
Qed.

End Frame.

(** * Further properties of the file *)

(** ** What [strconv.Atoi] accepts *)

Lemma parseUintLoop_accepts (s : string) (n v : Z) :
  0 <= n <= strconv.maxUint64 ->
  strconv.parseUintLoop s n = strconv.UintOk v ->
  allDigits s = true /\ 0 <= v <= strconv.maxUint64.
Proof.
  revert n. induction s as [ | c s IH]; intros n Hn;
    cbn [strconv.parseUintLoop allDigits]; unfold isDigit.
  - intros H. injection H as <-. split; [ reflexivity | exact Hn ].
  - destruct ((48 <=? Z.of_N (N_of_ascii c)) && (Z.of_N (N_of_ascii c) <=? 57)) eqn:Hd;
      [ | discriminate ].
    apply andb_prop in Hd. destruct Hd as [Hlo Hhi].
    apply Z.leb_le in Hlo. apply Z.leb_le in Hhi.
    destruct (strconv.maxUint64 / 10 + 1 <=? n); [ discriminate | ].
    destruct (Z.ltb_spec strconv.maxUint64 (n * 10 + (Z.of_N (N_of_ascii c) - 48)))
      as [Hover | Hfit]; [ discriminate | ].
    intros H. apply IH in H; [ | lia ].
    destruct H as [Hs Hv]. rewrite Hs. split; [ reflexivity | exact Hv ].
Qed.

Lemma ParseUint_accepts (s : string) (v : Z) :
  strconv.ParseUint s = strconv.UintOk v ->
  digitString s = true /\ 0 <= v <= strconv.maxUint64.
Proof.
  destruct s as [ | c s]; [ discriminate | ].
  unfold strconv.ParseUint, digitString.
  apply parseUintLoop_accepts. unfold strconv.maxUint64. lia.
Qed.

(** [strconv.Atoi] succeeds only on an optional sign followed by
    digits, with a value in the range of a 64-bit [int]; when it fails
    on such a string, the value is out of range. *)
Lemma Atoi_accepts (s : string) (n : Z) :
  strconv.Atoi s = (n, None) ->
  signedDigitString s = true /\ - 2 ^ 63 <= n < 2 ^ 63.
Proof.
  unfold strconv.Atoi, signedDigitString.
  destruct s as [ | c rest]; [ discriminate | ].
  destruct (Ascii.eqb c "+"), (Ascii.eqb c "-"); cbn [orb negb andb];
    match goal with
    | |- context [strconv.ParseUint ?d] =>
        destruct (strconv.ParseUint d) as [un | | ] eqn:Hp; try discriminate;
        apply ParseUint_accepts in Hp; destruct Hp as [Hd Hun]; rewrite Hd
    end;
    try (destruct (Z.ltb_spec (2 ^ 63) un) as [Hover | Hfit]; [ discriminate | ]);
    try (destruct (Z.leb_spec (2 ^ 63) un) as [Hover | Hfit]; [ discriminate | ]);
    intros H; injection H as <-; (split; [ reflexivity | lia ]).
Qed.



(** ** More on the factory *)

Section FactoryMore.

Context {api : GitLabAPI}.

(** The credential function returns a token or an error, never both
    and never neither: the token is non-empty exactly when the error
    is nil.  It changes nothing in the process. *)
Theorem getGitlabAccessToken_token_or_error (w : World) :
  exists t err,
    getGitlabAccessToken w = (Returned (t, err), w) /\
    (err = None <-> t <> "").
Proof.
  rewrite getGitlabAccessToken_run.
  destruct (resolvedToken w) as [t | ] eqn:Ht.
  - exists t, None. split; [ reflexivity | ].
    split; intros _; [ exact (resolvedToken_nonempty w t Ht) | reflexivity ].
  - eexists "", (Some _). split; [ reflexivity | ].
    split; [ discriminate | intros H; contradiction H; reflexivity ].
Qed.

(** The factory never panics and returns a client or an error, never
    both and never neither.  It leaves the configuration, the
    environment, the remote side, the request log and the spinner as
    they were, and prints at most one line: the configured URL, exactly
    when the URL is configured and a credential is found, whether or
    not the construction then succeeds. *)
Theorem NewGitLabClient_effects (w : World) :
  (exists r, fst (NewGitLabClient w) = Returned r /\
             ((exists g, r = (Some g, None)) \/ (exists e, r = (None, Some e)))) /\
  Conf (snd (NewGitLabClient w)) = Conf w /\
  environ (snd (NewGitLabClient w)) = environ w /\
  remote (snd (NewGitLabClient w)) = remote w /\
  calls (snd (NewGitLabClient w)) = calls w /\
  spinner (snd (NewGitLabClient w)) = spinner w /\
  stdout (snd (NewGitLabClient w)) =
    (if negb (config.Url (Conf w) =? "")%string &&
        (negb (config.AccessToken (Conf w) =? "")%string ||
         negb (lookupEnv gitlabTokenEnvVariable (environ w) =? "")%string)
     then (stdout w ++ [(config.Url (Conf w) ++ newline)%string])%list
     else stdout w).
Proof.
  split.
  - rewrite NewGitLabClient_result. eexists. split; [ reflexivity | ].
    unfold factoryResult, identityResult.
    destruct (resolvedToken w) as [t | ]; [ | right; eexists; reflexivity ].
    destruct (gitlab_NewClient t (factoryOptions (Conf w))) as [c [e | ]];
      [ right; eexists; reflexivity | ].
    destruct (config.ID (Conf w) =? "")%string; [ left; eexists; reflexivity | ].
    destruct (strconv.Atoi (config.ID (Conf w))) as [n [e | ]];
      [ right | left ]; eexists; reflexivity.
  - rewrite NewGitLabClient_world. unfold resolvedToken.
    destruct (config.AccessToken (Conf w) =? "")%string;
      destruct (lookupEnv gitlabTokenEnvVariable (environ w) =? "")%string;
      destruct (config.Url (Conf w) =? "")%string;
      cbn; repeat split; reflexivity.
Qed.

(** When [gitlab.NewClient] fails, the factory fails with its error
    wrapped as "Failed to create GitLab client: 0", whatever the
    identifier field holds: the identifier is not read, so an
    identifier that is not a number goes unreported.  The cause is
    kept under the context. *)
Theorem NewGitLabClient_constructor_failure (w : World) (t : string)
      (c : option gitlab_Client) (e : error) :
  fst (getGitlabAccessToken w) = Returned (t, None) ->
  gitlab_NewClient t (factoryOptions (Conf w)) = (c, Some e) ->
  fst (NewGitLabClient w) =
    Returned (None, Some (errors_Wrapf e "Failed to create GitLab client: 0")) /\
  Error (errors_Wrapf e "Failed to create GitLab client: 0") =
    "Failed to create GitLab client: 0: " ++ Error e /\
  Cause (errors_Wrapf e "Failed to create GitLab client: 0") = Cause e.
Proof.
  intros Htok Hnew.
  rewrite getGitlabAccessToken_run in Htok. cbn [fst] in Htok.
  assert (Hres : resolvedToken w = Some t).
  { destruct (resolvedToken w); inversion Htok; reflexivity. }
  rewrite NewGitLabClient_result. unfold factoryResult. rewrite Hres, Hnew.
  repeat split.
Qed.

(** A client that the factory returns has an identity in the range of
    a 64-bit [int]: 0 when the identifier field is empty; otherwise the
    field is an optional sign followed by decimal digits and nothing
    else (no blank, no line end), and the identity is the number
    [strconv.Atoi] reads from it. *)
Theorem NewGitLabClient_client_identity (w : World) (g : GitLabClient) :
  fst (NewGitLabClient w) = Returned (Some g, None) ->
  - 2 ^ 63 <= ID g < 2 ^ 63 /\
  (config.ID (Conf w) = "" -> ID g = 0) /\
  (config.ID (Conf w) <> "" ->
     signedDigitString (config.ID (Conf w)) = true /\
     strconv.Atoi (config.ID (Conf w)) = (ID g, None)).
Proof.
  rewrite NewGitLabClient_result. unfold factoryResult, identityResult.
  destruct (resolvedToken w) as [t | ]; [ | discriminate ].
  destruct (gitlab_NewClient t (factoryOptions (Conf w))) as [c [e | ]];
    [ discriminate | ].
  destruct (String.eqb_spec (config.ID (Conf w)) "") as [E | E].
  - intros H. injection H as <-. cbn [ID].
    split; [ lia | split; [ reflexivity | contradiction ] ].
  - destruct (strconv.Atoi (config.ID (Conf w))) as [n [e | ]] eqn:Hatoi;
      [ discriminate | ].
    intros H. injection H as <-. cbn [ID].
    destruct (Atoi_accepts _ _ Hatoi) as [Hs Hn].
    split; [ exact Hn | split; [ contradiction | ] ].
    intros _. split; [ exact Hs | reflexivity ].
Qed.


End FactoryMore.

(** The strict constructor refuses an ftp endpoint; the identifier
    "seven" is not reported. *)
Lemma NewGitLabClient_constructor_failure_witness :
  fst (@NewGitLabClient Strict.api (Strict.world Examples.ftpConf [] []))
  = Returned (None, Some (errors_Wrapf Strict.badURL "Failed to create GitLab client: 0")).
Proof.
  exact (proj1 (@NewGitLabClient_constructor_failure Strict.api
                  (Strict.world Examples.ftpConf [] [])
                  "glpat-config" None Strict.badURL eq_refl eq_refl)).
Defined.

(** The identifier "+42" gives the identity 42. *)
Lemma NewGitLabClient_client_identity_witness :
  signedDigitString "+42" = true /\ strconv.Atoi "+42" = (42, None).
Proof.
  refine (proj2 (proj2 (NewGitLabClient_client_identity
                   (Double.world (Double.confWith "glpat-config" "+42") [] [])
                   {| Client := Some (Double.handle "glpat-config"); ID := 42 |}
                   eq_refl)) _).
  discriminate.
Defined.


(** ** More on Fetch *)

(** Follows GetSnippet along every path: the identity test, the
    library client, the metadata answer, the file name, the content
    answer, the empty test and the time of last change. *)
Ltac fetch_paths g w :=
  unfold GetSnippet; go_run;
  destruct (Z.eqb_spec (ID g) 0) as [Hid | Hid]; world_simpl;
  [ | destruct (Client g) as [lc | ] eqn:Hc; world_simpl;
      [ destruct (Snippets_GetSnippet lc (ID g) (remote w))
          as [[[msn mres] [merr | ]] mrs] eqn:Hmeta; world_simpl;
        [ destruct mres as [mresp | ];
          [ destruct (gitlab.StatusCode mresp =? 404) eqn:Hstatus | ]
        | destruct msn as [msn | ]; world_simpl;
          [ destruct (String.eqb_spec (gitlab.FileName msn) (config.FileName (Conf w)))
              as [Hname | Hname]; cbn [negb]; world_simpl;
            [ destruct (Snippets_SnippetContent lc (ID g) mrs)
                as [[[cb cres] [cerr | ]] crs] eqn:Hcontent; world_simpl;
              [ | destruct (String.eqb_spec (string_of_bytes cb) "") as [Hb | Hb];
                  [ | destruct (gitlab.UpdatedAt msn) as [mt | ] eqn:Ht ] ]
            | ]
          | ] ]
      | ] ];
  world_simpl.

Section FetchMore.

Context {api : GitLabAPI}.

(** When the content request fails, GetSnippet returns no snippet and
    the error wrapped as "Failed to get GitLab Snippet content (ID:
    <identity>)", after exactly the two requests.  The response of the
    failed request is not read: unlike a failed metadata request, a
    failure without a response does not panic here. *)
Theorem GetSnippet_content_failure (g : GitLabClient) (w : World)
      (c : gitlab_Client) (snippet : gitlab.Snippet)
      (res res' : option gitlab.Response) (rs rs' : Remote)
      (payload : list byte) (e : error) :
  ID g <> 0 ->
  Client g = Some c ->
  Snippets_GetSnippet c (ID g) (remote w) = ((Some snippet, res, None), rs) ->
  gitlab.FileName snippet = config.FileName (Conf w) ->
  Snippets_SnippetContent c (ID g) rs = ((payload, res', Some e), rs') ->
  fst (GetSnippet g w) =
    Returned (None, Some (errors_Wrapf e
      ("Failed to get GitLab Snippet content (ID: " ++ fmt_d (ID g) ++ ")"))) /\
  sentBetween w (snd (GetSnippet g w))
              [CallGetSnippet c (ID g); CallSnippetContent c (ID g)] /\
  remote (snd (GetSnippet g w)) = rs'.
Proof.
  intros Hid0 Hc0 Hmeta0 Hname0 Hcontent0. unfold sentBetween.
  fetch_paths g w; try contradiction; try congruence.
  assert (lc = c) by congruence. subst lc.
  assert (Hm : (Some msn, mres, @None error, mrs) = (Some snippet, res, None, rs))
    by congruence.
  injection Hm as -> -> ->.
  assert (Hn : (cb, cres, Some cerr, crs) = (payload, res', Some e, rs')) by congruence.
  injection Hn as -> -> -> ->.
  rewrite <- app_assoc. repeat split.
Qed.

(** The two nil pointers that GetSnippet reads before any answer is
    inspected: with a set identity, a nil library client panics before
    a request is sent, and a metadata answer without error and without
    snippet panics after the one request. *)
Theorem GetSnippet_nil_pointers (g : GitLabClient) (w : World) :
  ID g <> 0 ->
  (Client g = None ->
     fst (GetSnippet g w) = Panicked NilDereference /\
     calls (snd (GetSnippet g w)) = calls w /\
     remote (snd (GetSnippet g w)) = remote w) /\
  (forall c res rs,
     Client g = Some c ->
     Snippets_GetSnippet c (ID g) (remote w) = ((None, res, None), rs) ->
     fst (GetSnippet g w) = Panicked NilDereference /\
     sentBetween w (snd (GetSnippet g w)) [CallGetSnippet c (ID g)]).
Proof.
  intros Hid0. split.
  - intros Hc0. fetch_paths g w; try contradiction; try congruence.
    repeat split.
  - intros c res rs Hc0 Hmeta0. unfold sentBetween.
    fetch_paths g w; try contradiction; try congruence.
    assert (lc = c) by congruence. subst lc. split; reflexivity.
Qed.

(** Whenever GetSnippet returns, it returns a snippet or an error,
    never both and never neither.  It does return, for a client
    without identity, and for a library client whose metadata answer
    keeps the contract (a response with a failure, a snippet with its
    time of last change with a success). *)
Theorem GetSnippet_returns (g : GitLabClient) (w : World) :
  (forall s err, fst (GetSnippet g w) = Returned (s, err) -> (s = None <-> err <> None)) /\
  (ID g = 0 \/
   (exists c, Client g = Some c /\
              metadataAnswerOk (fst (Snippets_GetSnippet c (ID g) (remote w)))) ->
   exists r, fst (GetSnippet g w) = Returned r).
Proof.
  split.
  - intros s err.
    fetch_paths g w; intros H; try discriminate H;
      injection H as <- <-; split; intros H;
      first [ reflexivity | discriminate | discriminate H | exfalso; apply H; reflexivity ].
  - intros [Hid0 | (c & Hc0 & Hok)].
    + fetch_paths g w; try contradiction. eexists; reflexivity.
    + revert Hok.
      fetch_paths g w; try (intros _; eexists; reflexivity); try congruence;
        (assert (lc = c) by congruence); subst lc;
        rewrite Hmeta; cbn [fst metadataAnswerOk].
      * intros H. contradiction H. reflexivity.
      * intros (s' & t' & Hs & Ht'). injection Hs as <-. congruence.
      * intros (s' & t' & Hs & _). discriminate Hs.
Qed.

(** GetSnippet sends no request (identity 0, or nil library client),
    the metadata request alone, or the metadata request followed by the
    content request for the same identity.  The content is requested
    only after a metadata answer without error whose snippet bears the
    configured file name. *)
Theorem GetSnippet_requests (g : GitLabClient) (w : World) :
  exists sent,
    sentBetween w (snd (GetSnippet g w)) sent /\
    ((sent = [] /\ (ID g = 0 \/ Client g = None)) \/
     (exists c,
        Client g = Some c /\ ID g <> 0 /\
        (sent = [CallGetSnippet c (ID g)] \/
         (sent = [CallGetSnippet c (ID g); CallSnippetContent c (ID g)] /\
          exists sn res rs,
            Snippets_GetSnippet c (ID g) (remote w) = ((Some sn, res, None), rs) /\
            gitlab.FileName sn = config.FileName (Conf w))))).
Proof.
  unfold sentBetween.
  fetch_paths g w;
    first
      [ solve [ exists []; rewrite app_nil_r; split; [ reflexivity | left; auto ] ]
      | solve [ exists [CallGetSnippet lc (ID g)]; split; [ reflexivity | right ];
                exists lc; auto ]
      | exists [CallGetSnippet lc (ID g); CallSnippetContent lc (ID g)];
        rewrite <- app_assoc; split; [ reflexivity | right ];
        exists lc; split; [ reflexivity | split; [ exact Hid | right ] ];
        split; [ reflexivity | exists msn, mres, mrs; split; [ exact Hmeta | exact Hname ] ] ].
Qed.

(** A snippet that GetSnippet returns for a set identity comes with no
    error, from a metadata answer without error that bears the
    configured file name and a time of last change, and from a content
    answer without error: its Content is the payload, which is not
    empty, and its UpdatedAt is that time. *)
Theorem GetSnippet_success_origin (g : GitLabClient) (w : World)
      (s : Snippet) (err : option error) :
  ID g <> 0 ->
  fst (GetSnippet g w) = Returned (Some s, err) ->
  err = None /\
  exists c sn res rs payload res' rs',
    Client g = Some c /\
    Snippets_GetSnippet c (ID g) (remote w) = ((Some sn, res, None), rs) /\
    gitlab.FileName sn = config.FileName (Conf w) /\
    gitlab.UpdatedAt sn = Some (UpdatedAt s) /\
    Snippets_SnippetContent c (ID g) rs = ((payload, res', None), rs') /\
    payload <> [] /\
    Content s = string_of_bytes payload /\
    remote (snd (GetSnippet g w)) = rs'.
Proof.
  intros Hid0.
  fetch_paths g w; try contradiction; intros H; try discriminate H.
  injection H as <- <-. split; [ reflexivity | ].
  exists lc, msn, mres, mrs, cb, cres, crs. cbn [Content UpdatedAt].
  repeat split; try reflexivity; try assumption.
  intros ->. apply Hb. reflexivity.
Qed.

End FetchMore.

(** A content request that fails without a response, on the snippet 7. *)
Lemma GetSnippet_content_failure_witness :
  fst (GetSnippet Double.client7 (Examples.contentFailing None Double.unreachable))
  = Returned (None, Some (errors_Wrapf Double.unreachable
                            "Failed to get GitLab Snippet content (ID: 7)")) /\
  calls (snd (GetSnippet Double.client7 (Examples.contentFailing None Double.unreachable)))
  = [CallGetSnippet Double.theClient 7; CallSnippetContent Double.theClient 7].
Proof.
  pose proof (GetSnippet_content_failure Double.client7
                (Examples.contentFailing None Double.unreachable)
                Double.theClient (Double.stored 7 "pet-snippet.toml" None)
                (Double.status 200) None
                [Double.AnswerContent [] None (Some Double.unreachable)] [] []
                Double.unreachable) as H.
  destruct H as (H1 & H2 & _); try reflexivity; [ discriminate | ].
  split; [ exact H1 | exact H2 ].
Defined.

(** A client bound to 7 without library client, and a metadata answer
    with neither snippet nor error. *)
Lemma GetSnippet_nil_pointers_witness :
  fst (GetSnippet (Examples.nilClient 7) (Double.holding "pet-snippet.toml" "ls" None))
  = Panicked NilDereference /\
  fst (GetSnippet Double.client7 (Examples.answering None (Double.status 200) None))
  = Panicked NilDereference.
Proof.
  split.
  - refine (proj1 (proj1 (GetSnippet_nil_pointers (Examples.nilClient 7)
                     (Double.holding "pet-snippet.toml" "ls" None) _) eq_refl)).
    discriminate.
  - refine (proj1 (proj2 (GetSnippet_nil_pointers Double.client7
                     (Examples.answering None (Double.status 200) None) _)
                     Double.theClient (Double.status 200) [] eq_refl eq_refl)).
    discriminate.
Defined.

(** A metadata answer that keeps the contract, on the snippet 7. *)
Lemma GetSnippet_returns_witness :
  exists r,
    fst (GetSnippet Double.client7
                    (Double.holding "pet-snippet.toml" "ls -la" (Some 1700000000)))
    = Returned r.
Proof.
  apply (GetSnippet_returns Double.client7
           (Double.holding "pet-snippet.toml" "ls -la" (Some 1700000000))).
  right. exists Double.theClient. split; [ reflexivity | ].
  exists (Double.stored 7 "pet-snippet.toml" (Some 1700000000)), 1700000000.
  split; reflexivity.
Defined.

(** The snippet fetched for the identity 7 and where it came from. *)
Lemma GetSnippet_success_origin_witness :
  exists c sn res rs payload res' rs',
    Client Double.client7 = Some c /\
    Snippets_GetSnippet c 7 (remote (Double.holding "pet-snippet.toml" "ls -la"
                                                    (Some 1700000000)))
    = ((Some sn, res, None), rs) /\
    gitlab.FileName sn = "pet-snippet.toml" /\
    gitlab.UpdatedAt sn = Some 1700000000 /\
    Snippets_SnippetContent c 7 rs = ((payload, res', None), rs') /\
    payload <> [] /\
    "ls -la" = string_of_bytes payload /\
    remote (snd (GetSnippet Double.client7
                            (Double.holding "pet-snippet.toml" "ls -la"
                                            (Some 1700000000)))) = rs'.
Proof.
  refine (proj2 (GetSnippet_success_origin Double.client7
                   (Double.holding "pet-snippet.toml" "ls -la" (Some 1700000000))
                   {| Content := "ls -la"; UpdatedAt := 1700000000 |} None _ eq_refl)).
  discriminate.
Defined.

(** ** More on Push *)

(** Follows UploadSnippet along every path: the identity test, the
    library client, and the answer to the create or update request. *)
Ltac push_paths g content w :=
  unfold UploadSnippet, createSnippet, updateSnippet; go_run;
  unfold gitlab.String, gitlab.Visibility, gitlab.VisibilityValue,
    createOptions, updateOptions in *;
  destruct (Z.eqb_spec (ID g) 0) as [Hid | Hid]; world_simpl;
  (destruct (Client g) as [lc | ] eqn:Hc; world_simpl;
   [ match goal with
     | |- context [Snippets_CreateSnippet lc ?o (remote w)] =>
         destruct (Snippets_CreateSnippet lc o (remote w))
           as [[[pret pres] [perr | ]] prs] eqn:Hcreate; world_simpl;
         [ | destruct pret as [pret | ] ]
     | |- context [Snippets_UpdateSnippet lc (ID g) ?o (remote w)] =>
         destruct (Snippets_UpdateSnippet lc (ID g) o (remote w))
           as [[[pret pres] [perr | ]] prs] eqn:Hupdate
     end
   | ]);
  world_simpl.

Section PushMore.

Context {api : GitLabAPI}.

(** The update path.  A client with an identity and a library client
    sends exactly one update request, for its own identity, carrying
    the fixed title and description, the configured file name and
    visibility, and the content as given.  It returns nil when the
    request succeeds and otherwise the error under two layers of the
    same context, "Failed to update GitLab Snippet"; the snippet and
    the response of the answer are not read, so it never panics, and
    it prints nothing. *)
Theorem UploadSnippet_update (g : GitLabClient) (content : string) (w : World)
      (c : gitlab_Client) (ret_ : option gitlab.Snippet)
      (res : option gitlab.Response) (err : option error) (rs : Remote) :
  ID g <> 0 ->
  Client g = Some c ->
  Snippets_UpdateSnippet c (ID g) (updateOptions (Conf w) content) (remote w)
    = ((ret_, res, err), rs) ->
  fst (UploadSnippet g content w) =
    Returned match err with
             | None => None
             | Some e =>
                 Some (errors_Wrap (errors_Wrap e "Failed to update GitLab Snippet")
                                   "Failed to update GitLab Snippet")
             end /\
  sentBetween w (snd (UploadSnippet g content w))
              [CallUpdateSnippet c (ID g)
                 {| gitlab.uTitle := Some "pet-snippet";
                    gitlab.uFileName := Some (config.FileName (Conf w));
                    gitlab.uDescription := Some "Snippet file generated by pet";
                    gitlab.uContent := Some content;
                    gitlab.uVisibility := Some (config.Visibility (Conf w)) |}] /\
  remote (snd (UploadSnippet g content w)) = rs /\
  stdout (snd (UploadSnippet g content w)) = stdout w /\
  (forall e, err = Some e ->
     Error (errors_Wrap (errors_Wrap e "Failed to update GitLab Snippet")
                        "Failed to update GitLab Snippet")
     = "Failed to update GitLab Snippet: Failed to update GitLab Snippet: " ++ Error e /\
     Cause (errors_Wrap (errors_Wrap e "Failed to update GitLab Snippet")
                        "Failed to update GitLab Snippet") = Cause e).
Proof.
  intros Hid0 Hc0 Hupdate0. unfold sentBetween.
  push_paths g content w; try contradiction; try congruence;
    (assert (lc = c) by congruence); subst lc;
    rewrite Hupdate0 in Hupdate; injection Hupdate as -> -> -> ->;
    repeat split; intros e0 He0; try discriminate He0.
Qed.

(** A create request that fails.  A client without identity returns
    the error under two layers of the same context, "Failed to create
    GitLab Snippet" (one from createSnippet, one from UploadSnippet),
    after the one create request; nothing is printed, in particular
    not the identifier -1 that createSnippet returns with the error. *)
Theorem UploadSnippet_create_failure (g : GitLabClient) (content : string) (w : World)
      (c : gitlab_Client) (ret_ : option gitlab.Snippet)
      (res : option gitlab.Response) (e : error) (rs : Remote) :
  ID g = 0 ->
  Client g = Some c ->
  Snippets_CreateSnippet c (createOptions (Conf w) content) (remote w)
    = ((ret_, res, Some e), rs) ->
  fst (createSnippet g content w) =
    Returned (-1, Some (errors_Wrap e "Failed to create GitLab Snippet")) /\
  fst (UploadSnippet g content w) =
    Returned (Some (errors_Wrap (errors_Wrap e "Failed to create GitLab Snippet")
                                "Failed to create GitLab Snippet")) /\
  Error (errors_Wrap (errors_Wrap e "Failed to create GitLab Snippet")
                     "Failed to create GitLab Snippet")
  = "Failed to create GitLab Snippet: Failed to create GitLab Snippet: " ++ Error e /\
  Cause (errors_Wrap (errors_Wrap e "Failed to create GitLab Snippet")
                     "Failed to create GitLab Snippet") = Cause e /\
  sentBetween w (snd (UploadSnippet g content w))
              [CallCreateSnippet c (createOptions (Conf w) content)] /\
  stdout (snd (UploadSnippet g content w)) = stdout w.
Proof.
  intros Hid0 Hc0 Hcreate0. unfold sentBetween. split.
  - unfold createSnippet. go_run. rewrite Hc0. world_simpl.
    unfold gitlab.String, gitlab.Visibility, gitlab.VisibilityValue, createOptions in *.
    rewrite Hcreate0. reflexivity.
  - push_paths g content w; try contradiction; try congruence;
      (assert (lc = c) by congruence); subst lc;
      rewrite Hcreate0 in Hcreate; try discriminate Hcreate.
    injection Hcreate as -> -> -> ->. repeat split.
Qed.

(** UploadSnippet panics in two cases and no other: the library client
    is nil (before any request), or the identity is 0 and the create
    request answers with neither error nor snippet.  A run that panics
    prints nothing. *)
Theorem UploadSnippet_panics_iff (g : GitLabClient) (content : string) (w : World) :
  (fst (UploadSnippet g content w) = Panicked NilDereference <->
   Client g = None \/
   (ID g = 0 /\
    exists c res rs,
      Client g = Some c /\
      Snippets_CreateSnippet c (createOptions (Conf w) content) (remote w)
        = ((None, res, None), rs))) /\
  (fst (UploadSnippet g content w) = Panicked NilDereference ->
   stdout (snd (UploadSnippet g content w)) = stdout w) /\
  (Client g = None -> calls (snd (UploadSnippet g content w)) = calls w).
Proof.
  push_paths g content w;
    (split; [ split | split ]); try reflexivity;
    try (intros H; discriminate H);
    try (intros _; discriminate);
    try (left; reflexivity).
  all: try (intros [H | (_ & c' & res' & rs' & H & H')]; [ discriminate H | ];
            injection H as <-;
            unfold createOptions in H'; rewrite H' in Hcreate; discriminate Hcreate).
  all: try (intros [H | (H & _)]; [ discriminate H | contradiction ]).
  intros _. right. split; [ exact Hid | ].
  exists lc, pres, prs. split; [ reflexivity | exact Hcreate ].
Qed.

(** The spinner is started, labelled and stopped once by every call,
    on every path: the deferred Stop runs when the call returns a
    result, when it returns an error and when it panics. *)
Theorem spinner_always_stopped (g : GitLabClient) (content : string) (w : World) :
  spinner (snd (GetSnippet g w)) =
    (spinner w ++ [SpinnerStart; SpinnerSuffix " Getting GitLab Snippet...";
                   SpinnerStop])%list /\
  spinner (snd (UploadSnippet g content w)) =
    (spinner w ++
       [SpinnerStart;
        SpinnerSuffix (if ID g =? 0 then " Creating GitLab Snippet..."
                       else " Updating GitLab Snippet...");
        SpinnerStop])%list.
Proof.
  split.
  - fetch_paths g w; repeat rewrite <- app_assoc; reflexivity.
  - push_paths g content w; repeat rewrite <- app_assoc; reflexivity.
Qed.

End PushMore.

(** ** Sequences of calls *)

Section Sequences.

Context {api : GitLabAPI}.

Lemma GetSnippet_frame (g : GitLabClient) (w : World) :
  Conf (snd (GetSnippet g w)) = Conf w /\
  environ (snd (GetSnippet g w)) = environ w /\
  stdout (snd (GetSnippet g w)) = stdout w.
Proof. fetch_paths g w; repeat split. Qed.

Lemma UploadSnippet_frame (g : GitLabClient) (content : string) (w : World) :
  Conf (snd (UploadSnippet g content w)) = Conf w /\
  environ (snd (UploadSnippet g content w)) = environ w /\
  (stdout (snd (UploadSnippet g content w)) = stdout w \/
   (ID g = 0 /\
    exists id, stdout (snd (UploadSnippet g content w)) = (stdout w ++ [identityLine id])%list)).
Proof.
  push_paths g content w;
    (split; [ reflexivity | split; [ reflexivity | ] ]);
    first [ left; reflexivity | right; split; [ exact Hid | eexists; reflexivity ] ].
Qed.

Lemma GetSnippet_no_panic (g : GitLabClient) (w : World) (c : gitlab_Client) :
  Client g = Some c ->
  metadataAnswerOk (fst (Snippets_GetSnippet c (ID g) (remote w))) ->
  exists r, fst (GetSnippet g w) = Returned r.
Proof.
  intros Hc0. 
  fetch_paths g w; try (intros _; eexists; reflexivity); try congruence;
    (assert (lc = c) by congruence); subst lc;
    rewrite Hmeta; cbn [fst metadataAnswerOk].
  - intros H. contradiction H. reflexivity.
  - intros (s' & t' & Hs & Ht'). injection Hs as <-. congruence.
  - intros (s' & t' & Hs & _). discriminate Hs.
Qed.

Lemma UploadSnippet_no_panic (g : GitLabClient) (content : string) (w : World)
      (c : gitlab_Client) :
  Client g = Some c ->
  createAnswerOk (fst (Snippets_CreateSnippet c (createOptions (Conf w) content) (remote w))) ->
  exists err, fst (UploadSnippet g content w) = Returned err.
Proof.
  intros Hc0.
  push_paths g content w; try (intros _; eexists; reflexivity); try congruence.
  assert (lc = c) by congruence. subst lc.
  rewrite Hcreate. cbn. intros H. contradiction H. reflexivity.
Qed.

Lemma session_cons_result (g : GitLabClient) (op : Op) (ops : list Op) (w : World) :
  fst (session g (op :: ops) w) =
    match fst (perform g op w) with
    | Returned r =>
        match fst (session g ops (snd (perform g op w))) with
        | Returned rs => Returned (r :: rs)
        | Panicked p => Panicked p
        end
    | Panicked p => Panicked p
    end.
Proof.
  cbn [session]. unfold bind at 1.
  destruct (perform g op w) as [[r | p] w1]; cbn [fst snd]; [ | reflexivity ].
  unfold bind, ret.
  destruct (session g ops w1) as [[rs | p] w2]; reflexivity.
Qed.

Lemma perform_no_panic (g : GitLabClient) (op : Op) (w : World) :
  honestLibrary ->
  Client g <> None ->
  exists r, fst (perform g op w) = Returned r.
Proof.
  intros [Hget Hcreate] Hc. destruct (Client g) as [c | ] eqn:Hc0; [ | congruence ].
  destruct op as [ | content]; unfold perform, bind, ret.
  - destruct (GetSnippet_no_panic g w c Hc0 (Hget _ _ _)) as [[s err] Hr].
    destruct (GetSnippet g w) as [o w1]. cbn [fst] in Hr. subst o.
    eexists; reflexivity.
  - destruct (UploadSnippet_no_panic g content w c Hc0 (Hcreate _ _ _)) as [err Hr].
    destruct (UploadSnippet g content w) as [o w1]. cbn [fst] in Hr. subst o.
    eexists; reflexivity.
Qed.

(** With a library that keeps its contract and a client value whose
    library client is not nil, no sequence of GetSnippet and
    UploadSnippet calls panics: every call of the sequence returns. *)
Theorem session_returns (g : GitLabClient) (ops : list Op) (w : World) :
  honestLibrary ->
  Client g <> None ->
  exists rs, fst (session g ops w) = Returned rs /\ length rs = length ops.
Proof.
  intros Hlib Hc. revert w.
  induction ops as [ | op ops IH]; intros w.
  - exists []. split; reflexivity.
  - rewrite session_cons_result.
    destruct (perform_no_panic g op w Hlib Hc) as [r Hr]. rewrite Hr.
    destruct (IH (snd (perform g op w))) as (rs & Hrs & Hlen). rewrite Hrs.
    exists (r :: rs). split; [ reflexivity | cbn; rewrite Hlen; reflexivity ].
Qed.

(** No sequence of calls changes the configuration or the environment,
    and the only lines it prints are identity lines "GitLab Snippet
    ID: <id>": none at all for a client with an identity, and none by
    GetSnippet. *)
Theorem session_frame (g : GitLabClient) (ops : list Op) (w : World) :
  Conf (snd (session g ops w)) = Conf w /\
  environ (snd (session g ops w)) = environ w /\
  stdout (snd (GetSnippet g w)) = stdout w /\
  exists lines,
    stdout (snd (session g ops w)) = (stdout w ++ lines)%list /\
    Forall (fun l => exists id, l = identityLine id) lines /\
    (ID g <> 0 -> lines = []).
Proof.
  enough (H : Conf (snd (session g ops w)) = Conf w /\
              environ (snd (session g ops w)) = environ w /\
              exists lines,
                stdout (snd (session g ops w)) = (stdout w ++ lines)%list /\
                Forall (fun l => exists id, l = identityLine id) lines /\
                (ID g <> 0 -> lines = [])).
  { destruct H as (H1 & H2 & H3). repeat split; try assumption.
    apply GetSnippet_frame. }
  revert w. induction ops as [ | op ops IH]; intros w.
  - repeat split. exists []. rewrite app_nil_r. repeat split. constructor.
  - assert (Hop : Conf (snd (perform g op w)) = Conf w /\
                  environ (snd (perform g op w)) = environ w /\
                  exists lines,
                    stdout (snd (perform g op w)) = (stdout w ++ lines)%list /\
                    Forall (fun l => exists id, l = identityLine id) lines /\
                    (ID g <> 0 -> lines = [])).
    { rewrite perform_world. destruct op as [ | content].
      - destruct (GetSnippet_frame g w) as (H1 & H2 & H3).
        repeat split; try assumption.
        exists []. rewrite app_nil_r. repeat split; [ assumption | constructor ].
      - destruct (UploadSnippet_frame g content w) as (H1 & H2 & [H3 | (H0 & id & H3)]).
        + repeat split; try assumption.
          exists []. rewrite app_nil_r. repeat split; [ assumption | constructor ].
        + repeat split; try assumption.
          exists [identityLine id]. split; [ assumption | split ].
          * constructor; [ exists id; reflexivity | constructor ].
          * intros Hnz. contradiction. }
    rewrite session_cons. destruct (fst (perform g op w)); [ | exact Hop ].
    destruct Hop as (H1 & H2 & l1 & H3 & H4 & H5).
    destruct (IH (snd (perform g op w))) as (I1 & I2 & l2 & I3 & I4 & I5).
    split; [ congruence | split; [ congruence | ] ].
    exists (l1 ++ l2)%list. split; [ rewrite I3, H3, app_assoc; reflexivity | ].
    split; [ apply Forall_app; split; assumption | ].
    intros Hnz. rewrite (H5 Hnz), (I5 Hnz). reflexivity.
Qed.

(** Create is not idempotent.  On a client without identity, when the
    successful create answers carry their snippet, every push of a
    sequence sends its own create request with its own content, in
    order: k pushes send k create requests, and all of them return. *)
Theorem pushes_create_each_time (g : GitLabClient) (contents : list string) (w : World)
      (c : gitlab_Client) :
  ID g = 0 ->
  Client g = Some c ->
  (forall opt r, createAnswerOk (fst (Snippets_CreateSnippet c opt r))) ->
  sentBetween w (snd (session g (pushes contents) w))
              (map (fun C => CallCreateSnippet c (createOptions (Conf w) C)) contents) /\
  exists rs, fst (session g (pushes contents) w) = Returned rs /\
             length rs = length contents.
Proof.
  intros Hid Hc Hlib. revert w.
  induction contents as [ | C contents IH]; intros w; cbn [pushes map].
  - split; [ apply sentBetween_nil; reflexivity | exists []; split; reflexivity ].
  - fold (pushes contents).
    destruct (UploadSnippet_no_panic g C w c Hc (Hlib _ _)) as [err Hret].
    destruct (UploadSnippet_create_run g C w c Hid Hc) as (Hcalls & Hconf & _ & _).
    destruct (IH (snd (UploadSnippet g C w))) as (Hsent & rs & Hrs & Hlen).
    rewrite Hconf in Hsent.
    rewrite session_cons, session_cons_result, (perform_returns g C w err Hret),
      perform_world.
    split.
    + unfold sentBetween in *. rewrite Hsent, Hcalls, <- app_assoc. reflexivity.
    + rewrite Hrs. eexists. split; [ reflexivity | cbn; rewrite Hlen; reflexivity ].
Qed.

End Sequences.

(** ** Push, then fetch *)

Section RoundTrip.

Context {api : GitLabAPI}.

Lemma UploadSnippet_update_world (g : GitLabClient) (content : string) (w : World)
      (c : gitlab_Client) (ret_ : option gitlab.Snippet)
      (res : option gitlab.Response) (rs : Remote) :
  ID g <> 0 ->
  Client g = Some c ->
  Snippets_UpdateSnippet c (ID g) (updateOptions (Conf w) content) (remote w)
    = ((ret_, res, None), rs) ->
  fst (UploadSnippet g content w) = Returned None /\
  remote (snd (UploadSnippet g content w)) = rs /\
  Conf (snd (UploadSnippet g content w)) = Conf w.
Proof.
  intros Hid0 Hc0 Hupdate0.
  push_paths g content w; try contradiction; try congruence;
    (assert (lc = c) by congruence); subst lc;
    rewrite Hupdate0 in Hupdate; try discriminate Hupdate.
  injection Hupdate as -> -> ->. repeat split.
Qed.

(** The identity survives the way the user carries it from one run to
    the next.  After a successful create, the text that UploadSnippet
    prints between "GitLab Snippet ID: " and the end of the line is the
    decimal writing of the new identity; a later run whose
    configuration holds that text as identifier gets from the factory a
    client bound to that identity, and, when the identity is not 0, a
    push of that client updates that snippet instead of creating
    another. *)
Theorem identity_carried_to_next_run (g : GitLabClient) (w : World)
      (c : gitlab_Client) (C : string)
      (created : gitlab.Snippet) (res : option gitlab.Response) :
  ID g = 0 ->
  Client g = Some c ->
  fst (Snippets_CreateSnippet c (createOptions (Conf w) C) (remote w))
    = (Some created, res, None) ->
  - 2 ^ 63 <= gitlab.ID created < 2 ^ 63 ->
  stdout (snd (UploadSnippet g C w)) =
    (stdout w ++ [("GitLab Snippet ID: " ++ fmt_d (gitlab.ID created) ++ newline)%string])%list /\
  forall (w' : World) (t : string) (c' : gitlab_Client),
    config.ID (Conf w') = fmt_d (gitlab.ID created) ->
    fst (getGitlabAccessToken w') = Returned (t, None) ->
    gitlab_NewClient t (factoryOptions (Conf w')) = (Some c', None) ->
    fst (NewGitLabClient w') =
      Returned (Some {| Client := Some c'; ID := gitlab.ID created |}, None) /\
    (gitlab.ID created <> 0 ->
     forall C2 w2,
       sentBetween w2
         (snd (UploadSnippet {| Client := Some c'; ID := gitlab.ID created |} C2 w2))
         [CallUpdateSnippet c' (gitlab.ID created) (updateOptions (Conf w2) C2)]).
Proof.
  intros Hid Hc Hcreate Hrange.
  destruct (UploadSnippet_create_run g C w c Hid Hc) as (_ & _ & _ & Hok).
  destruct (Hok created res Hcreate) as (_ & Hout).
  split; [ exact Hout | ].
  intros w' t c' Hconf Htok Hnew. split.
  - rewrite getGitlabAccessToken_run in Htok. cbn [fst] in Htok.
    assert (Hres : resolvedToken w' = Some t).
    { destruct (resolvedToken w'); inversion Htok; reflexivity. }
    rewrite NewGitLabClient_result. unfold factoryResult, identityResult.
    rewrite Hres, Hnew, Hconf, (Atoi_fmt_d _ Hrange).
    destruct (String.eqb_spec (fmt_d (gitlab.ID created)) "") as [E | E]; [ | reflexivity ].
    pose proof (Atoi_fmt_d _ Hrange) as Hatoi. rewrite E in Hatoi. discriminate Hatoi.
  - intros Hnz C2 w2.
    apply (UploadSnippet_update_run
             {| Client := Some c'; ID := gitlab.ID created |} C2 w2 c' Hnz eq_refl).
Qed.

End RoundTrip.

(** ** The client in front of the in-memory service *)

Lemma Fake_honest : @honestLibrary Fake.api.
Proof.
  split.
  - intros c id r. cbn. unfold Fake.getSnippet.
    destruct (Fake.find id r) as [o | ]; cbn; [ | discriminate ].
    exists (Fake.metadata o), (Fake.oupdated o). split; reflexivity.
  - intros c opt r. cbn. discriminate.
Qed.

Lemma Fake_find_overwrite (id : Z) (o' : Fake.Object) (objs : list Fake.Object)
      (o : Fake.Object) :
  List.find (fun x => Fake.oid x =? id) objs = Some o ->
  Fake.oid o' = id ->
  List.find (fun x => Fake.oid x =? id) (map (Fake.overwrite id o') objs) = Some o'.
Proof.
  intros Hfind Hid. induction objs as [ | a objs IH]; [ discriminate | ].
  cbn [List.find map] in *.
  destruct (Fake.oid a =? id) eqn:Ha.
  - assert (Ho : Fake.overwrite id o' a = o') by (unfold Fake.overwrite; rewrite Ha; reflexivity).
    rewrite Ho, Hid, Z.eqb_refl. reflexivity.
  - assert (Ho : Fake.overwrite id o' a = a) by (unfold Fake.overwrite; rewrite Ha; reflexivity).
    rewrite Ho, Ha. apply IH. exact Hfind.
Qed.

(** Against a service that stores what it is sent, a push of [C] by a
    client bound to an existing snippet returns no error, and the
    fetch that follows on the same client returns [C] with the time of
    the push: the file name the push sends is the one the fetch
    expects.  The one exception is the empty content: the push of ""
    succeeds, and the fetch that follows fails with "<filename> is
    empty". *)
Theorem push_then_fetch (g : @GitLabClient Fake.api) (w : @World Fake.api)
      (C : string) (o : Fake.Object) :
  ID g <> 0 ->
  Client g <> None ->
  Fake.find (ID g) (remote w) = Some o ->
  fst (UploadSnippet g C w) = Returned None /\
  fst (GetSnippet g (snd (UploadSnippet g C w))) =
    if (C =? "")%string
    then Returned (None, Some (fmt_Errorf (config.FileName (Conf w) ++ " is empty")))
    else Returned (Some {| Content := C; UpdatedAt := Fake.clock (remote w) |}, None).
Proof.
  intros Hid Hc Hfind.
  destruct (Client g) as [c | ] eqn:Hc0; [ clear Hc | congruence ].
  pose (o' := {| Fake.oid := ID g;
                 Fake.ofile := config.FileName (Conf w);
                 Fake.ocontent := C;
                 Fake.oupdated := Fake.clock (remote w) |}).
  pose (st' := {| Fake.objects := map (Fake.overwrite (ID g) o') (Fake.objects (remote w));
                  Fake.nextID := Fake.nextID (remote w);
                  Fake.clock := Fake.clock (remote w) + 1 |}).
  assert (Hupdate :
            @Snippets_UpdateSnippet Fake.api c (ID g) (updateOptions (Conf w) C) (remote w)
            = ((Some (Fake.metadata o'), Some {| gitlab.StatusCode := 200 |}, None), st')).
  { cbn. unfold Fake.updateSnippet. rewrite Hfind. reflexivity. }
  destruct (UploadSnippet_update_world g C w c _ _ _ Hid Hc0 Hupdate) as (Hret & Hrem & Hconf).
  split; [ exact Hret | ].
  assert (Hfind' : Fake.find (ID g) st' = Some o').
  { unfold Fake.find, st'. cbn [Fake.objects].
    apply (Fake_find_overwrite (ID g) o' _ o Hfind). reflexivity. }
  rewrite (GetSnippet_content_run g (snd (UploadSnippet g C w)) c (Fake.metadata o')
             (Some {| gitlab.StatusCode := 200 |}) (Some {| gitlab.StatusCode := 200 |})
             st' st' (list_byte_of_string C) Hid Hc0).
  - unfold string_of_bytes. rewrite string_of_list_byte_of_string, Hconf. reflexivity.
  - rewrite Hrem. cbn. unfold Fake.getSnippet. rewrite Hfind'. reflexivity.
  - rewrite Hconf. reflexivity.
  - cbn. unfold Fake.snippetContent. rewrite Hfind'. reflexivity.
Qed.

(** Against the same service, the first push of a client without
    identity stores [C] under the next free identity and prints it; a
    client bound to the printed identity then fetches [C] back (or
    fails with "<filename> is empty" when [C] is empty). *)
Theorem first_push_then_fetch (g : @GitLabClient Fake.api) (w : @World Fake.api)
      (C : string) :
  ID g = 0 ->
  Client g <> None ->
  Fake.nextID (remote w) <> 0 ->
  fst (UploadSnippet g C w) = Returned None /\
  stdout (snd (UploadSnippet g C w)) =
    (stdout w ++ [identityLine (Fake.nextID (remote w))])%list /\
  fst (GetSnippet (@Build_GitLabClient Fake.api (Client g) (Fake.nextID (remote w)))
                  (snd (UploadSnippet g C w))) =
    if (C =? "")%string
    then Returned (None, Some (fmt_Errorf (config.FileName (Conf w) ++ " is empty")))
    else Returned (Some {| Content := C; UpdatedAt := Fake.clock (remote w) |}, None).
Proof.
  intros Hid Hc Hnext.
  destruct (Client g) as [c | ] eqn:Hc0; [ clear Hc | congruence ].
  pose (o := {| Fake.oid := Fake.nextID (remote w);
                Fake.ofile := config.FileName (Conf w);
                Fake.ocontent := C;
                Fake.oupdated := Fake.clock (remote w) |}).
  pose (st' := {| Fake.objects := o :: Fake.objects (remote w);
                  Fake.nextID := Fake.nextID (remote w) + 1;
                  Fake.clock := Fake.clock (remote w) + 1 |}).
  destruct (UploadSnippet_create_run g C w c Hid Hc0) as (_ & Hconf & Hrem & Hok).
  destruct (Hok (Fake.metadata o) (Some {| gitlab.StatusCode := 201 |}) eq_refl)
    as (Hret & Hout).
  split; [ exact Hret | split; [ exact Hout | ] ].
  assert (Hrem' : remote (snd (UploadSnippet g C w)) = st') by (rewrite Hrem; reflexivity).
  assert (Hfind : Fake.find (Fake.nextID (remote w)) st' = Some o).
  { unfold Fake.find, st'. cbn. rewrite Z.eqb_refl. reflexivity. }
  rewrite (GetSnippet_content_run
             (@Build_GitLabClient Fake.api (Some c) (Fake.nextID (remote w)))
             (snd (UploadSnippet g C w)) c (Fake.metadata o)
             (Some {| gitlab.StatusCode := 200 |}) (Some {| gitlab.StatusCode := 200 |})
             st' st' (list_byte_of_string C) Hnext eq_refl).
  - unfold string_of_bytes. rewrite string_of_list_byte_of_string, Hconf. reflexivity.
  - rewrite Hrem'. cbn [ID Snippets_GetSnippet Fake.api].
    unfold Fake.getSnippet. rewrite Hfind. reflexivity.
  - rewrite Hconf. reflexivity.
  - cbn [ID Snippets_SnippetContent Fake.api].
    unfold Fake.snippetContent. rewrite Hfind. reflexivity.
Qed.

(** An update of the snippet 7 that the service refuses. *)
Lemma UploadSnippet_update_witness :
  fst (UploadSnippet Double.client7 "ls -la"
         (Examples.answering None (Double.status 500) (Some Double.serverError500)))
  = Returned (Some (errors_Wrap (errors_Wrap Double.serverError500
                                             "Failed to update GitLab Snippet")
                                "Failed to update GitLab Snippet")).
Proof.
  refine (proj1 (UploadSnippet_update Double.client7 "ls -la"
                   (Examples.answering None (Double.status 500) (Some Double.serverError500))
                   Double.theClient None (Double.status 500) (Some Double.serverError500) []
                   _ eq_refl eq_refl)).
  discriminate.
Defined.

(** A create that the service refuses. *)
Lemma UploadSnippet_create_failure_witness :
  fst (UploadSnippet Double.unsetClient "ls -la"
         (Examples.answering None (Double.status 500) (Some Double.serverError500)))
  = Returned (Some (errors_Wrap (errors_Wrap Double.serverError500
                                             "Failed to create GitLab Snippet")
                                "Failed to create GitLab Snippet")) /\
  stdout (snd (UploadSnippet Double.unsetClient "ls -la"
                 (Examples.answering None (Double.status 500) (Some Double.serverError500))))
  = [].
Proof.
  pose proof (UploadSnippet_create_failure Double.unsetClient "ls -la"
                (Examples.answering None (Double.status 500) (Some Double.serverError500))
                Double.theClient None (Double.status 500) Double.serverError500 []
                eq_refl eq_refl eq_refl) as (_ & H1 & _ & _ & _ & H2).
  split; [ exact H1 | exact H2 ].
Defined.

(** Three calls on the snippet 7 of the in-memory service. *)
Lemma session_returns_witness :
  exists rs,
    fst (session (Fake.client 7) [OpGetSnippet; OpUploadSnippet "ls -la"; OpGetSnippet]
                 (Fake.world Double.conf Examples.stocked)) = Returned rs /\
    length rs = 3%nat.
Proof.
  apply (session_returns (Fake.client 7)
           [OpGetSnippet; OpUploadSnippet "ls -la"; OpGetSnippet]
           (Fake.world Double.conf Examples.stocked) Fake_honest).
  discriminate.
Defined.

(** Three pushes of a client without identity to the in-memory service. *)
Lemma pushes_create_each_time_witness :
  calls (snd (session (Fake.client 0) (pushes ["ls"; "ls -l"; "ls -la"])
                      (Fake.world Double.conf Fake.empty)))
  = [@CallCreateSnippet Fake.api Double.theClient (createOptions Double.conf "ls");
     @CallCreateSnippet Fake.api Double.theClient (createOptions Double.conf "ls -l");
     @CallCreateSnippet Fake.api Double.theClient (createOptions Double.conf "ls -la")].
Proof.
  refine (proj1 (pushes_create_each_time (Fake.client 0) ["ls"; "ls -l"; "ls -la"]
                   (Fake.world Double.conf Fake.empty) Double.theClient
                   eq_refl eq_refl _)).
  intros opt r. cbn. discriminate.
Defined.

(** The identity 42 printed by one run and configured for the next. *)
Lemma identity_carried_to_next_run_witness :
  stdout (snd (UploadSnippet Double.unsetClient "ls -la" Double.creating))
  = [("GitLab Snippet ID: 42" ++ newline)%string] /\
  fst (NewGitLabClient (Double.world (Double.confWith "glpat-config" "42") [] []))
  = Returned (Some {| Client := Some (Double.handle "glpat-config"); ID := 42 |}, None).
Proof.
  pose proof (identity_carried_to_next_run Double.unsetClient Double.creating
                Double.theClient "ls -la"
                (Double.stored 42 "pet-snippet.toml" (Some 1700000000))
                (Double.status 201) eq_refl eq_refl eq_refl) as H.
  destruct H as (H1 & H2); [ cbn; lia | ].
  split; [ exact H1 | ].
  exact (proj1 (H2 (Double.world (Double.confWith "glpat-config" "42") [] [])
                   "glpat-config" (Double.handle "glpat-config")
                   eq_refl eq_refl eq_refl)).
Defined.

(** A push of "ls -la" to the stored snippet 7, then a fetch. *)
Lemma push_then_fetch_witness :
  fst (GetSnippet (Fake.client 7)
         (snd (UploadSnippet (Fake.client 7) "ls -la"
                 (Fake.world Double.conf Examples.stocked))))
  = Returned (Some {| Content := "ls -la"; UpdatedAt := 1700000000 |}, None).
Proof.
  refine (proj2 (push_then_fetch (Fake.client 7) (Fake.world Double.conf Examples.stocked)
                   "ls -la"
                   {| Fake.oid := 7; Fake.ofile := "pet-snippet.toml";
                      Fake.ocontent := "ls"; Fake.oupdated := 1690000000 |}
                   _ _ eq_refl));
    discriminate.
Defined.

(** A first push of "ls -la" to the empty service, then a fetch of the
    identity 101 that it printed. *)
Lemma first_push_then_fetch_witness :
  stdout (snd (UploadSnippet (Fake.client 0) "ls -la" (Fake.world Double.conf Fake.empty)))
  = [identityLine 101] /\
  fst (GetSnippet (Fake.client 101)
         (snd (UploadSnippet (Fake.client 0) "ls -la" (Fake.world Double.conf Fake.empty))))
  = Returned (Some {| Content := "ls -la"; UpdatedAt := 1700000000 |}, None).
Proof.
  refine (proj2 (first_push_then_fetch (Fake.client 0) (Fake.world Double.conf Fake.empty)
                   "ls -la" eq_refl _ _));
    discriminate.
Defined.

(** ** What the factory hands to the library *)

(** In front of the recording constructor, the library client of a
    client that the factory returns shows what [gitlab.NewClient]
    received: a non-empty token, the configured URL or else the
    built-in one, and an HTTP client whose transport skips the
    certificate check exactly when the configuration asks for it
    (otherwise the HTTP client has no transport of its own). *)
Theorem factory_options_recorded (cf : config.GitLabConfig)
      (env : list (string * string)) (st : list Double.Answer)
      (g : GitLabClient) (h : Double.Handle) :
  fst (NewGitLabClient (Double.world cf env st)) = Returned (Some g, None) ->
  Client g = Some h ->
  Double.token h <> "" /\
  Double.options h =
    [ gitlab.WithBaseURL
        (if (config.Url cf =? "")%string then "https://git.mydomain.com/api/v4"
         else config.Url cf);
      gitlab.WithHTTPClient
        {| http.Transport_ :=
             if config.SkipSsl cf
             then Some {| http.TLSClientConfig :=
                            Some {| tls.InsecureSkipVerify := true |} |}
             else None |} ].
Proof.
  intros Hg Hh.
  destruct (resolvedToken (Double.world cf env st)) as [t | ] eqn:Ht.
  - pose proof (factory_client_from_token _ t g Ht Hg) as Hc.
    rewrite Hh in Hc. cbn in Hc. injection Hc as ->. cbn [Double.token Double.options].
    split; [ exact (resolvedToken_nonempty _ t Ht) | ].
    unfold factoryOptions. destruct (config.SkipSsl cf); reflexivity.
  - rewrite NewGitLabClient_result in Hg. unfold factoryResult in Hg.
    rewrite Ht in Hg. discriminate Hg.
Qed.

(** A configuration that names its own endpoint and skips the
    certificate check. *)
Lemma factory_options_recorded_witness :
  Double.token Examples.ownHandle <> "" /\
  Double.options Examples.ownHandle
  = [ gitlab.WithBaseURL "https://gitlab.example.org/api/v4";
      gitlab.WithHTTPClient
        {| http.Transport_ :=
             Some {| http.TLSClientConfig := Some {| tls.InsecureSkipVerify := true |} |} |} ].
Proof.
  exact (factory_options_recorded Examples.ownEndpoint [] []
           {| Client := Some Examples.ownHandle; ID := 0 |} Examples.ownHandle
           eq_refl eq_refl).
Defined.
